(** * urllib3.contrib.unix: HTTP over Unix domain sockets

    A shallow embedding of [src/urllib3/contrib/unix.py] and the
    properties of its four classes:

    - [UnixHTTPConnection]          (an [HTTPConnection] over [AF_UNIX]),
    - [UnixHTTPConnectionPool]      (a pool for one socket path),
    - [UnixHostHTTPConnectionPool]  (the same pool, addressed by URI host),
    - [UnixHTTPPoolManager]         (a [PoolManager] with the scheme
                                     ["http+unix"] registered).

    Python objects are records, a subclass instance being its own
    attributes together with the part built by the parent class
    ([super]).  Exceptions are the [Raise] results of an error monad, and
    code that acts on mutable state (the socket layer, the pool and its
    log, the dictionaries of a manager) runs in a state-and-error monad
    in which a raised exception keeps the effects already performed. *)

From Stdlib Require Import ZArith String Ascii List Lia.
From stdpp Require Import base gmap strings list.

Local Open Scope Z_scope.

(** ** Python values *)

(** The value of one socket option: [Union[int, bytes]]. *)
Inductive OptVal :=
| OInt (z : Z)
| OBytes (b : list Byte.byte).

(** [Tuple[int, int, Union[int, bytes]]]: level, option name, value. *)
Definition SockOpt : Type := Z * Z * OptVal.

(** The values that travel through keyword arguments.  A float is the
    dyadic rational [m * 2^e]; [VObj] is any other object, known by its
    identity. *)
Inductive PyVal :=
| VNone
| VInt (z : Z)
| VFloat (m e : Z)
| VStr (s : string)
| VDefaultTimeout
| VSockOpts (o : list SockOpt)
| VObj (id : N).

(** Modelled from the spec: [SOCKET_GLOBAL_DEFAULT_TIMEOUT] is imported
    from [..util.connection], which is not part of the sources at hand.
    The spec describes it as a sentinel ("global default") value that is
    compared by identity; it is the object [VDefaultTimeout], which is
    no number and not [None]. *)
Definition SOCKET_GLOBAL_DEFAULT_TIMEOUT : PyVal := VDefaultTimeout.

(** [v is SOCKET_GLOBAL_DEFAULT_TIMEOUT]: identity with the sentinel. *)
Definition is_SOCKET_GLOBAL_DEFAULT_TIMEOUT (v : PyVal) : bool :=
  match v with
  | VDefaultTimeout => true
  | _ => false
  end.

(** ** Exceptions and the two monads *)

Inductive Errno := ENOENT | ECONNREFUSED | EACCES | EMFILE | EINVAL | ENOPROTOOPT.

Inductive Exn :=
| TypeError (detail : string)
| KeyError (key : string)
| AttributeError (name : string)
| ValueError
| OSError (errno : Errno)
| FrameworkError (tag : N).

Inductive Result (A : Type) :=
| Ok (a : A)
| Raise (e : Exn).
Arguments Ok {A} a.
Arguments Raise {A} e.

#[global] Instance Result_ret : MRet Result := λ A a, Ok a.
#[global] Instance Result_bind : MBind Result := λ A B f r,
  match r with
  | Ok a => f a
  | Raise e => Raise e
  end.

(** Stateful code: the state reached is kept when an exception leaves. *)
Definition M (S A : Type) : Type := S → Result A * S.

#[global] Instance M_ret {S} : MRet (M S) := λ A a s, (Ok a, s).
#[global] Instance M_bind {S} : MBind (M S) := λ A B f m s,
  match m s with
  | (Ok a, s') => f a s'
  | (Raise e, s') => (Raise e, s')
  end.

Definition lift {S A} (r : Result A) : M S A := λ s, (r, s).
Definition get {S} : M S S := λ s, (Ok s, s).
Definition put {S} (s : S) : M S unit := λ _, (Ok tt, s).

Notation "e1 ;; e2" := (e1 ≫= λ _, e2)
  (at level 100, e2 at level 200, right associativity) : stdpp_scope.

(** ** Calls with keyword arguments

    [f(k1=v1, ..., **star)]: the keywords written at the call are joined
    with the entries of the dictionary [star].  A keyword given both ways
    makes the call itself raise [TypeError] ("got multiple values for
    keyword argument"), before the body of [f] runs. *)
Fixpoint call_kw (explicit : list (string * PyVal)) (star : gmap string PyVal)
  : Result (gmap string PyVal) :=
  match explicit with
  | [] => Ok star
  | (k, v) :: rest =>
      match star !! k with
      | Some _ => Raise (TypeError k)
      | None => kw ← call_kw rest star; Ok (<[k := v]> kw)
      end
  end.

(** ** The socket layer

    What the module [socket] of the standard library does, as far as
    [_new_conn] uses it.  [OS] fixes how the system answers; [World] is
    the mutable part: the handles that are open, their timeouts and
    peers, and the sequence of calls made so far. *)

Inductive AddressFamily := AF_INET | AF_INET6 | AF_UNIX.
Inductive SocketKind := SOCK_STREAM | SOCK_DGRAM.

Inductive SockEvent :=
| EvSocket (family : AddressFamily) (kind : SocketKind)
| EvSetsockopt (fd : nat) (opt : SockOpt)
| EvSettimeout (fd : nat) (value : PyVal)
| EvConnect (fd : nat) (address : string)
| EvClose (fd : nat).

Record OS := mkOS {
  socket_errno : option Errno;
  setsockopt_errno : SockOpt → option Errno;
  connect_errno : string → option Errno
}.

Record World := mkWorld {
  os : OS;
  next_fd : nat;
  open_fds : gset nat;
  timeouts : gmap nat PyVal;
  connected : gmap nat string;
  trace : list SockEvent
}.

Definition emit (ev : SockEvent) : M World unit := λ w,
  (Ok tt, mkWorld (os w) (next_fd w) (open_fds w) (timeouts w) (connected w)
            (trace w ++ [ev])).

Module socket.

(** [socket.socket(family, kind)] *)
Definition socket (family : AddressFamily) (kind : SocketKind) : M World nat :=
  emit (EvSocket family kind);;
  w ← get;
  match socket_errno (os w) with
  | Some e => lift (Raise (OSError e))
  | None =>
      put (mkWorld (os w) (S (next_fd w)) ({[next_fd w]} ∪ open_fds w)
             (timeouts w) (connected w) (trace w));;
      mret (next_fd w)
  end.

(** [sock.setsockopt(level, optname, value)] *)
Definition setsockopt (sock : nat) (opt : SockOpt) : M World unit :=
  emit (EvSetsockopt sock opt);;
  w ← get;
  match setsockopt_errno (os w) opt with
  | Some e => lift (Raise (OSError e))
  | None => mret tt
  end.

(** What [sock.settimeout(value)] accepts: [None] or a number that is
    not negative. *)
Definition check_timeout (value : PyVal) : Result unit :=
  match value with
  | VNone => Ok tt
  | VInt z => if decide (z < 0) then Raise ValueError else Ok tt
  | VFloat m _ => if decide (m < 0) then Raise ValueError else Ok tt
  | _ => Raise (TypeError "timeout")
  end.

(** [sock.settimeout(value)] *)
Definition settimeout (sock : nat) (value : PyVal) : M World unit :=
  emit (EvSettimeout sock value);;
  lift (check_timeout value);;
  w ← get;
  put (mkWorld (os w) (next_fd w) (open_fds w)
         (<[sock := value]> (timeouts w)) (connected w) (trace w)).

(** [sock.connect(address)], the address of an [AF_UNIX] socket being
    a path *)
Definition connect (sock : nat) (address : string) : M World unit :=
  emit (EvConnect sock address);;
  w ← get;
  match connect_errno (os w) address with
  | Some e => lift (Raise (OSError e))
  | None =>
      put (mkWorld (os w) (next_fd w) (open_fds w) (timeouts w)
             (<[sock := address]> (connected w)) (trace w))
  end.

(** [sock.close()] *)
Definition close (sock : nat) : M World unit :=
  emit (EvClose sock);;
  w ← get;
  put (mkWorld (os w) (next_fd w) (open_fds w ∖ {[sock]}) (timeouts w)
         (delete sock (connected w)) (trace w)).

End socket.

(** Modelled from the spec: [_set_socket_options] is imported from
    [..util.connection], which is not part of the sources at hand.  The
    spec has it apply the configured socket options to the socket; the
    options are an optional sequence, set one after the other, and
    [None] sets nothing. *)
Fixpoint setsockopt_each (sock : nat) (options : list SockOpt) : M World unit :=
  match options with
  | [] => mret tt
  | opt :: rest => socket.setsockopt sock opt;; setsockopt_each sock rest
  end.

Definition _set_socket_options (sock : nat) (options : option (list SockOpt))
  : M World unit :=
  match options with
  | None => mret tt
  | Some opts => setsockopt_each sock opts
  end.

(** ** The generic framework

    [HTTPConnection], [HTTPConnectionPool] and [PoolManager] are the
    parent classes; their modules are imported by [unix.py] and are not
    part of the sources at hand.  The records below hold the attributes
    of a parent that [unix.py] reads. *)

Module HTTPConnection.
(** Modelled from the spec: the class [HTTPConnection] is imported from
    [..connection].  A connection has a destination (the host), a timeout
    value and socket options; [_new_conn] reads the last two. *)
Record t := mk {
  host : string;
  timeout : PyVal;
  socket_options : option (list SockOpt)
}.
End HTTPConnection.

Module Timeout.
(** Modelled from the spec: the timeout policy of a pool is a configured
    timeout (connect/read); [_new_conn] of the pool reads
    [connect_timeout]. *)
Record t := mk {
  connect_timeout : PyVal;
  read_timeout : PyVal
}.
End Timeout.

Module HTTPConnectionPool.
(** Modelled from the spec: the class [HTTPConnectionPool] is imported
    from [..connectionpool].  A pool has a creation counter, a configured
    timeout and the keywords for its connections, which are the
    attributes that [_new_conn] of the pool reads. *)
Record t := mk {
  num_connections : Z;
  timeout : Timeout.t;
  conn_kw : gmap string PyVal
}.
End HTTPConnectionPool.

(** The pool classes, which are the values of [pool_classes_by_scheme]. *)
Inductive PoolClass :=
| HTTPConnectionPoolCls
| HTTPSConnectionPoolCls
| UnixHTTPConnectionPoolCls
| UnixHostHTTPConnectionPoolCls.

(** [cls.__name__] *)
Definition __name__ (cls : PoolClass) : string :=
  match cls with
  | HTTPConnectionPoolCls => "HTTPConnectionPool"
  | HTTPSConnectionPoolCls => "HTTPSConnectionPool"
  | UnixHTTPConnectionPoolCls => "UnixHTTPConnectionPool"
  | UnixHostHTTPConnectionPoolCls => "UnixHostHTTPConnectionPool"
  end.

(** What a registry of a manager holds: references to class objects and
    to function objects.  Two references are the same object exactly
    when they are equal. *)
Inductive PyRef :=
| RClass (c : PoolClass)
| RFun (id : N).

(** The dictionaries of the managers live in a store, so that two
    attributes (or two managers) may hold the same dictionary. *)
Abbreviation Heap := (gmap positive (gmap string PyRef)).

Module PoolManager.
(** Modelled from the spec: the class [PoolManager] is imported from
    [..poolmanager].  A manager has two registries, from scheme to pool
    class and from scheme to key function; each attribute holds a
    dictionary of the store. *)
Record t := mk {
  pool_classes_by_scheme : positive;
  key_fn_by_scheme : positive
}.
End PoolManager.

(** The constructors of the parent classes, which [unix.py] calls through
    [super().__init__].  They are parameters of the development: what is
    proved holds for every parent. *)
Class Framework := {
  HTTPConnection__init__ : gmap string PyVal → Result HTTPConnection.t;
  HTTPConnectionPool__init__ : gmap string PyVal → Result HTTPConnectionPool.t;
  PoolManager__init__ :
    Z → option (gmap string string) → gmap string PyVal → M Heap PoolManager.t
}.

(** [d[key]] and [d[key] = value] on the dictionary stored at [d]. *)
Definition dict_getitem (d : positive) (key : string) : M Heap PyRef := λ h,
  match h !! d with
  | None => (Raise (AttributeError "dict"), h)
  | Some m =>
      match m !! key with
      | None => (Raise (KeyError key), h)
      | Some v => (Ok v, h)
      end
  end.

Definition dict_setitem (d : positive) (key : string) (value : PyRef)
  : M Heap unit := λ h,
  match h !! d with
  | None => (Raise (AttributeError "dict"), h)
  | Some m => (Ok tt, <[d := <[key := value]> m]> h)
  end.

(** ** class UnixHTTPConnection(HTTPConnection) *)

Module UnixHTTPConnection.

Record t := mk {
  socket_path : string;
  super : HTTPConnection.t
}.

(** [default_port = None] (class attribute) *)
Definition default_port : PyVal := VNone.

Definition __init__ `{Framework} (socket_path : string)
    (kwargs : gmap string PyVal) : Result t :=
  kw ← call_kw [("host", VStr "localhost")] kwargs;
  base ← HTTPConnection__init__ kw;
  mret (mk socket_path base).

Definition _new_conn (self : t) : M World nat :=
  sock ← socket.socket AF_UNIX SOCK_STREAM;
  _set_socket_options sock (HTTPConnection.socket_options (super self));;
  (if is_SOCKET_GLOBAL_DEFAULT_TIMEOUT (HTTPConnection.timeout (super self))
   then mret tt
   else socket.settimeout sock (HTTPConnection.timeout (super self)));;
  socket.connect sock (socket_path self);;
  mret sock.

End UnixHTTPConnection.

(** ** Logging *)

Inductive LogLevel := DEBUG | INFO | WARNING | ERROR.

(** One call of a logging method: the level, the format and its
    arguments. *)
Record LogRecord := mkLogRecord {
  log_level : LogLevel;
  log_format : string;
  log_args : list PyVal
}.

(** ** repr() of a string

    A Python string is modelled by a [string] whose characters are the
    code points below 256.  [py_repr] is what [repr] (and so the
    conversion [!r] of [str.format]) gives on it. *)

Definition dquote : ascii := "034"%char.
Definition squote : ascii := "'"%char.
Definition backslash : ascii := "\"%char.

Definition hex_digit (n : N) : ascii :=
  match n with
  | 0 => "0" | 1 => "1" | 2 => "2" | 3 => "3" | 4 => "4" | 5 => "5"
  | 6 => "6" | 7 => "7" | 8 => "8" | 9 => "9" | 10 => "a" | 11 => "b"
  | 12 => "c" | 13 => "d" | 14 => "e" | _ => "f"
  end%N%char.

(** The escape [\xHH] of a code point below 256. *)
Definition hex_escape (n : N) : string :=
  String backslash (String "x" (String (hex_digit (n / 16)) (String (hex_digit (n mod 16)) ""))).

(** Which code points from 128 to 255 are printable: all but the
    control characters 128 to 159, the no-break space (160) and the soft
    hyphen (173). *)
Definition latin1_printable (n : N) : bool :=
  (N.leb 161 n && negb (N.eqb n 173))%N.

Definition repr_char (quote : ascii) (c : ascii) : string :=
  let n := N_of_ascii c in
  if Ascii.eqb c quote || Ascii.eqb c backslash then String backslash (String c "")
  else if N.eqb n 9 then "\t"
  else if N.eqb n 10 then "\n"
  else if N.eqb n 13 then "\r"
  else if N.ltb n 32 || N.eqb n 127 then hex_escape n
  else if N.ltb n 127 then String c ""
  else if latin1_printable n then String c ""
  else hex_escape n.

Fixpoint contains (c : ascii) (s : string) : bool :=
  match s with
  | EmptyString => false
  | String c' s' => Ascii.eqb c c' || contains c s'
  end.

Fixpoint repr_body (quote : ascii) (s : string) : string :=
  match s with
  | EmptyString => ""
  | String c s' => repr_char quote c +:+ repr_body quote s'
  end.

Definition py_repr (s : string) : string :=
  let quote :=
    if contains squote s && negb (contains dquote s) then dquote else squote in
  String quote (repr_body quote s +:+ String quote "").

(** ** class UnixHTTPConnectionPool(HTTPConnectionPool) and
       class UnixHostHTTPConnectionPool(UnixHTTPConnectionPool) *)

Module UnixHTTPConnectionPool.

(** [cls] is [type(self)]: the constructor below also runs for the
    subclass. *)
Record t := mk {
  cls : PoolClass;
  socket_path : string;
  super : HTTPConnectionPool.t
}.

(** The pool together with the records handed to the logger [log]. *)
Record State := mkState {
  self : t;
  log : list LogRecord
}.

Definition __init__ `{Framework} (cls : PoolClass) (socket_path : string)
    (conn_kw : gmap string PyVal) : Result t :=
  kw ← call_kw [("host", VStr socket_path)] conn_kw;
  base ← HTTPConnectionPool__init__ kw;
  mret (mk cls socket_path base).

(** [ConnectionCls = UnixHTTPConnection], called with the keywords
    [socket_path] and [timeout] and with [**conn_kw]; the parameter
    [socket_path] of the constructor takes its keyword, the others go
    to [**kwargs]. *)
Definition ConnectionCls `{Framework} (socket_path : string) (timeout : PyVal)
    (conn_kw : gmap string PyVal) : Result UnixHTTPConnection.t :=
  kw ← call_kw [("socket_path", VStr socket_path); ("timeout", timeout)] conn_kw;
  UnixHTTPConnection.__init__ socket_path (delete "socket_path" kw).

(** [self.num_connections += 1] *)
Definition incr_num_connections : M State unit := λ st,
  let p := self st in
  let b := super p in
  (Ok tt,
   mkState
     (mk (cls p) (socket_path p)
        (HTTPConnectionPool.mk (HTTPConnectionPool.num_connections b + 1)
           (HTTPConnectionPool.timeout b) (HTTPConnectionPool.conn_kw b)))
     (log st)).

(** [log.debug(format, *args)] *)
Definition log_debug (format : string) (args : list PyVal) : M State unit :=
  λ st, (Ok tt, mkState (self st) (log st ++ [mkLogRecord DEBUG format args])).

Definition _new_conn `{Framework} : M State UnixHTTPConnection.t :=
  incr_num_connections;;
  st ← get;
  log_debug "Starting new HTTP connection (%d): %s"
    [VInt (HTTPConnectionPool.num_connections (super (self st)));
     VStr (socket_path (self st))];;
  st ← get;
  conn ← lift (ConnectionCls (socket_path (self st))
                 (Timeout.connect_timeout
                    (HTTPConnectionPool.timeout (super (self st))))
                 (HTTPConnectionPool.conn_kw (super (self st))));
  mret conn.

Definition __str__ (self : t) : string :=
  __name__ (cls self) +:+ "(socket_path=" +:+ py_repr (socket_path self) +:+ ")".

End UnixHTTPConnectionPool.

Module UnixHostHTTPConnectionPool.

Definition scheme : string := "http+unix".

(** [port] exists for API compatibility, but is ignored.  The host is
    passed on by position, to the parameter [socket_path] of the parent
    constructor, which [conn_kw] must then not name again. *)
Definition __init__ `{Framework} (host : string) (port : option Z)
    (conn_kw : gmap string PyVal) : Result UnixHTTPConnectionPool.t :=
  match conn_kw !! "socket_path" with
  | Some _ => Raise (TypeError "socket_path")
  | None =>
      UnixHTTPConnectionPool.__init__ UnixHostHTTPConnectionPoolCls host conn_kw
  end.

End UnixHostHTTPConnectionPool.

(** ** class UnixHTTPPoolManager(PoolManager) *)

Module UnixHTTPPoolManager.

Definition __init__ `{Framework} (num_pools : Z)
    (headers : option (gmap string string))
    (connection_pool_kw : gmap string PyVal) : M Heap PoolManager.t :=
  self ← PoolManager__init__ num_pools headers connection_pool_kw;
  dict_setitem (PoolManager.pool_classes_by_scheme self)
    UnixHostHTTPConnectionPool.scheme (RClass UnixHostHTTPConnectionPoolCls);;
  key_fn ← dict_getitem (PoolManager.key_fn_by_scheme self) "http";
  dict_setitem (PoolManager.key_fn_by_scheme self)
    UnixHostHTTPConnectionPool.scheme key_fn;;
  mret self.

End UnixHTTPPoolManager.

(** ** A reference framework

    One framework to run the classes of [unix.py] on. *)

Module Reference.

(** Modelled from the spec: [HTTPConnection.__init__] is not part of
    the sources at hand.  A connection has a destination, a timeout
    value and socket options; the host is required, the timeout
    defaults to the global-default sentinel and the options to none. *)
Definition HTTPConnection__init__ (kw : gmap string PyVal)
  : Result HTTPConnection.t :=
  match kw !! "host" with
  | Some (VStr h) =>
      Ok (HTTPConnection.mk h
            (default SOCKET_GLOBAL_DEFAULT_TIMEOUT (kw !! "timeout"))
            (match kw !! "socket_options" with
             | Some (VSockOpts o) => Some o
             | _ => None
             end))
  | _ => Raise (TypeError "host")
  end.

(** Modelled from the spec: [HTTPConnectionPool.__init__] is not part
    of the sources at hand.  A pool has a creation counter, which
    starts at zero, and a configured timeout (connect/read); the
    keywords it does not use itself are kept for the connections. *)
Definition HTTPConnectionPool__init__ (kw : gmap string PyVal)
  : Result HTTPConnectionPool.t :=
  match kw !! "host" with
  | Some (VStr _) =>
      let t := default SOCKET_GLOBAL_DEFAULT_TIMEOUT (kw !! "timeout") in
      Ok (HTTPConnectionPool.mk 0 (Timeout.mk t t)
            (delete "host" (delete "port" (delete "timeout" kw))))
  | _ => Raise (TypeError "host")
  end.

Definition pool_classes : gmap string PyRef :=
  <["http" := RClass HTTPConnectionPoolCls]>
    (<["https" := RClass HTTPSConnectionPoolCls]> ∅).

Definition key_fns : gmap string PyRef :=
  <["http" := RFun 1]> (<["https" := RFun 2]> ∅).

(** Modelled from the spec: [PoolManager.__init__] is not part of the
    sources at hand.  A manager owns a mapping from scheme to pool
    class and a mapping from scheme to key function, here two new
    dictionaries with the entries of the schemes of ordinary HTTP. *)
Definition PoolManager__init__ (num_pools : Z)
    (headers : option (gmap string string))
    (connection_pool_kw : gmap string PyVal) : M Heap PoolManager.t := λ h,
  let c := fresh (dom h) in
  let h1 := <[c := pool_classes]> h in
  let k := fresh (dom h1) in
  (Ok (PoolManager.mk c k), <[k := key_fns]> h1).

Definition framework : Framework :=
  Build_Framework HTTPConnection__init__ HTTPConnectionPool__init__
    PoolManager__init__.

End Reference.

(** ** What the claims speak of *)

(** Modelled from the spec: the parent constructor binds a connection to
    the timeout it is given. *)
Definition HTTPConnection_keeps_timeout `{Framework} : Prop :=
  ∀ kw base t,
    HTTPConnection__init__ kw = Ok base →
    kw !! "timeout" = Some t →
    HTTPConnection.timeout base = t.

(** The steps of opening a connection, in the order of the spec: create
    the socket, set the options, set the timeout unless it is the
    sentinel, connect. *)
Definition new_conn_steps (self : UnixHTTPConnection.t) (sock : nat)
  : list SockEvent :=
  let t := HTTPConnection.timeout (UnixHTTPConnection.super self) in
  [EvSocket AF_UNIX SOCK_STREAM]
  ++ map (EvSetsockopt sock)
       (default [] (HTTPConnection.socket_options (UnixHTTPConnection.super self)))
  ++ (if is_SOCKET_GLOBAL_DEFAULT_TIMEOUT t then [] else [EvSettimeout sock t])
  ++ [EvConnect sock (UnixHTTPConnection.socket_path self)].

(** Nothing on the way to [connect] fails: the socket can be created,
    every option can be set, and the timeout is the sentinel or a value
    that [settimeout] accepts. *)
Definition reaches_connect (self : UnixHTTPConnection.t) (w : World) : Prop :=
  let t := HTTPConnection.timeout (UnixHTTPConnection.super self) in
  socket_errno (os w) = None
  ∧ Forall (λ opt, setsockopt_errno (os w) opt = None)
      (default [] (HTTPConnection.socket_options (UnixHTTPConnection.super self)))
  ∧ (is_SOCKET_GLOBAL_DEFAULT_TIMEOUT t = true ∨ socket.check_timeout t = Ok tt).

(** The handle is closed by one of the events. *)
Definition closes (sock : nat) (evs : list SockEvent) : Prop :=
  EvClose sock ∈ evs.

(** The entry of the dictionary stored at [d] under [key]. *)
Definition registry_entry (h : Heap) (d : positive) (key : string)
  : option PyRef :=
  h !! d ≫= λ m, m !! key.

(** A character that [repr] leaves as it is inside single quotes:
    printable ASCII other than the quote and the backslash. *)
Definition plain_char (c : ascii) : bool :=
  let n := N_of_ascii c in
  (N.leb 32 n && N.ltb n 127 && negb (Ascii.eqb c squote)
   && negb (Ascii.eqb c backslash))%N.

Fixpoint plain (s : string) : bool :=
  match s with
  | EmptyString => true
  | String c s' => plain_char c && plain s'
  end.

(** The world after the calls [evs] have been added to its trace. *)
Definition add_events (w : World) (evs : list SockEvent) : World :=
  mkWorld (os w) (next_fd w) (open_fds w) (timeouts w) (connected w)
    (trace w ++ evs).

(** A connection to a path at which nothing exists, in a world without
    open handles where no such path can be connected to. *)
Definition conn_nowhere : UnixHTTPConnection.t :=
  UnixHTTPConnection.mk "/nonexistent.sock"
    (HTTPConnection.mk "localhost" SOCKET_GLOBAL_DEFAULT_TIMEOUT None).

Definition os_nothing_listens : OS :=
  mkOS None (λ _, None) (λ _, Some ENOENT).

Definition world_nothing_listens : World :=
  mkWorld os_nothing_listens 0 ∅ ∅ ∅ [].

(** A connection with one socket option and a timeout of five seconds,
    in a world where a server listens at every path. *)
Definition conn_listening : UnixHTTPConnection.t :=
  UnixHTTPConnection.mk "/var/run/server.sock"
    (HTTPConnection.mk "localhost" (VInt 5) (Some [(6, 1, OInt 1)])).

Definition os_all_listen : OS :=
  mkOS None (λ _, None) (λ _, None).

Definition world_all_listen : World :=
  mkWorld os_all_listen 3 ∅ ∅ ∅ [].

(** Opening fails with the error of the system and leaves no handle
    behind: the handles that are open afterwards are those that were
    open before. *)
Definition fails_without_leak (self : UnixHTTPConnection.t) (w : World) : Prop :=
  (∃ errno, fst (UnixHTTPConnection._new_conn self w) = Raise (OSError errno))
  ∧ open_fds (snd (UnixHTTPConnection._new_conn self w)) = open_fds w.

(** A pool for the socket of a local server, as the reference framework
    builds it, and the state in which it has logged nothing yet. *)
Definition pool_base : HTTPConnectionPool.t :=
  HTTPConnectionPool.mk 0 (Timeout.mk (VInt 3) (VInt 7)) ∅.

Definition pool_server_sock : UnixHTTPConnectionPool.t :=
  UnixHTTPConnectionPool.mk UnixHTTPConnectionPoolCls "/var/run/server.sock"
    pool_base.

Definition state_server_sock : UnixHTTPConnectionPool.State :=
  UnixHTTPConnectionPool.mkState pool_server_sock [].

(** C5 as the spec has it: the path itself stands after
    ["(socket_path="]. *)
Definition str_with_bare_path (pool : UnixHTTPConnectionPool.t) : string :=
  __name__ (UnixHTTPConnectionPool.cls pool) +:+ "(socket_path="
  +:+ UnixHTTPConnectionPool.socket_path pool +:+ ")".

(** The state of a pool after [n] calls of [_new_conn] in a row, each
    started in the state the one before has left. *)
Fixpoint new_conn_times `{Framework} (n : nat) (st : UnixHTTPConnectionPool.State)
  : UnixHTTPConnectionPool.State :=
  match n with
  | O => st
  | S n' => new_conn_times n' (snd (UnixHTTPConnectionPool._new_conn st))
  end.

(** The record that [_new_conn] of a pool hands to the logger when the
    counter has reached [n]. *)
Definition connection_record (n : Z) (socket_path : string) : LogRecord :=
  mkLogRecord DEBUG "Starting new HTTP connection (%d): %s"
    [VInt n; VStr socket_path].

(** The records of [n] calls in a row, the counter having been [start]
    before the first. *)
Definition connection_records (start : Z) (socket_path : string) (n : nat)
  : list LogRecord :=
  map (λ i, connection_record (start + Z.of_nat i + 1) socket_path) (seq 0 n).

(** The timeouts of the handles after [_new_conn] has got as far as
    [connect]: the timeout of the new socket is the configured one unless
    that is the sentinel. *)
Definition timeouts_after (self : UnixHTTPConnection.t) (w : World)
  : gmap nat PyVal :=
  let t := HTTPConnection.timeout (UnixHTTPConnection.super self) in
  if is_SOCKET_GLOBAL_DEFAULT_TIMEOUT t then timeouts w
  else <[next_fd w := t]> (timeouts w).

(** A pool whose keywords for the connections name [timeout] a second
    time. *)
Definition state_duplicate_timeout : UnixHTTPConnectionPool.State :=
  UnixHTTPConnectionPool.mkState
    (UnixHTTPConnectionPool.mk UnixHTTPConnectionPoolCls "/var/run/server.sock"
       (HTTPConnectionPool.mk 4 (Timeout.mk (VInt 3) (VInt 7))
          (<["timeout" := VInt 9]> ∅)))
    [].

(** A connection with a negative timeout. *)
Definition conn_negative_timeout : UnixHTTPConnection.t :=
  UnixHTTPConnection.mk "/var/run/server.sock"
    (HTTPConnection.mk "localhost" (VInt (-1)) None).

(** A store in which the registry of key functions has no entry for
    ["http"], and a framework whose managers use it. *)
Definition heap_without_http : Heap :=
  <[2%positive := <["https" := RFun 2]> ∅]>
    (<[1%positive := Reference.pool_classes]> ∅).

Definition framework_without_http : Framework :=
  Build_Framework Reference.HTTPConnection__init__
    Reference.HTTPConnectionPool__init__
    (λ _ _ _ _, (Ok (PoolManager.mk 1 2), heap_without_http)).

(** A framework whose managers all share the two dictionaries of one
    store, as module-level registries are shared. *)
Definition heap_shared : Heap :=
  <[2%positive := Reference.key_fns]>
    (<[1%positive := Reference.pool_classes]> ∅).

(** The shared store once a [UnixHTTPPoolManager] has been built on it. *)
Definition heap_registered : Heap :=
  <[2%positive := <["http+unix" := RFun 1]> Reference.key_fns]>
    (<[1%positive :=
         <["http+unix" := RClass UnixHostHTTPConnectionPoolCls]>
           Reference.pool_classes]> ∅).

Definition framework_shared : Framework :=
  Build_Framework Reference.HTTPConnection__init__
    Reference.HTTPConnectionPool__init__
    (λ _ _ _ h, (Ok (PoolManager.mk 1 2), h)).

(** The character that stands first in an escaped string, and what
    follows it: the inverse of [repr_char]. *)
Definition hex_value (c : ascii) : option N :=
  let n := N_of_ascii c in
  if (N.leb 48 n && N.leb n 57)%N then Some (n - 48)%N
  else if (N.leb 97 n && N.leb n 102)%N then Some (n - 87)%N
  else None.

Definition unrepr_char (s : string) : option (ascii * string) :=
  match s with
  | EmptyString => None
  | String c rest =>
      if Ascii.eqb c backslash then
        match rest with
        | EmptyString => None
        | String e rest' =>
            if Ascii.eqb e "t" then Some ("009"%char, rest')
            else if Ascii.eqb e "n" then Some ("010"%char, rest')
            else if Ascii.eqb e "r" then Some ("013"%char, rest')
            else if Ascii.eqb e "x" then
              match rest' with
              | String h (String l rest'') =>
                  match hex_value h, hex_value l with
                  | Some a, Some b => Some (ascii_of_N (16 * a + b), rest'')
                  | _, _ => None
                  end
              | _ => None
              end
            else Some (e, rest')
        end
      else Some (c, rest)
  end.

(** The world once [socket.socket] has returned a new handle. *)
Definition world_with_socket (w : World) : World :=
  mkWorld (os w) (S (next_fd w)) ({[next_fd w]} ∪ open_fds w) (timeouts w)
    (connected w) (trace w ++ [EvSocket AF_UNIX SOCK_STREAM]).

(** One of the calls is a [connect]. *)
Definition connects (evs : list SockEvent) : Prop :=
  ∃ fd address, EvConnect fd address ∈ evs.

(** A framework whose constructor of pools refuses every call. *)
Definition framework_refusing : Framework :=
  Build_Framework Reference.HTTPConnection__init__
    (λ _, Raise (FrameworkError 1)) Reference.PoolManager__init__.

(** A world in which no socket can be created. *)
Definition world_no_socket : World :=
  mkWorld (mkOS (Some EMFILE) (λ _, None) (λ _, None)) 7 ∅ ∅ ∅ [].

(** A world in which handle 1 is open, connected and has a timeout, and
    a server listens at every path. *)
Definition world_one_open : World :=
  mkWorld os_all_listen 2 {[1%nat]} (<[1%nat := VInt 30]> ∅)
    (<[1%nat := "/tmp/other.sock"]> ∅) [].

(** The connection that the pool [pool_server_sock] creates on the
    reference framework. *)
Definition conn_server_sock : UnixHTTPConnection.t :=
  UnixHTTPConnection.mk "/var/run/server.sock"
    (HTTPConnection.mk "localhost" (VInt 3) None).

(** A pool with the path of [pool_server_sock] that has created five
    connections. *)
Definition pool_server_sock_used : UnixHTTPConnectionPool.t :=
  UnixHTTPConnectionPool.mk UnixHTTPConnectionPoolCls "/var/run/server.sock"
    (HTTPConnectionPool.mk 5 (Timeout.mk VNone VNone) ∅).

(** * Properties *)

(** ** Keyword calls *)

Lemma call_kw_one (k : string) (v : PyVal) (star : gmap string PyVal) :
  star !! k = None → call_kw [(k, v)] star = Ok (<[k := v]> star).
Proof. intros Hk. simpl. rewrite Hk. reflexivity. Qed.

Lemma call_kw_duplicate (k : string) (v v' : PyVal) (rest : list (string * PyVal))
    (star : gmap string PyVal) :
  star !! k = Some v' → call_kw ((k, v) :: rest) star = Raise (TypeError k).
Proof. intros Hk. simpl. rewrite Hk. reflexivity. Qed.

Lemma call_kw_two (k1 k2 : string) (v1 v2 : PyVal) (star : gmap string PyVal) :
  star !! k1 = None → star !! k2 = None →
  call_kw [(k1, v1); (k2, v2)] star = Ok (<[k1 := v1]> (<[k2 := v2]> star)).
Proof. intros H1 H2. simpl. rewrite H1, H2. reflexivity. Qed.

(** ** UnixHTTPConnection.__init__ *)

Section connection_init.
Context `{Framework}.

Lemma connection_init_unfold (socket_path : string) (kwargs : gmap string PyVal) :
  kwargs !! "host" = None →
  UnixHTTPConnection.__init__ socket_path kwargs =
    (base ← HTTPConnection__init__ (<["host" := VStr "localhost"]> kwargs);
     Ok (UnixHTTPConnection.mk socket_path base)).
Proof.
  intros Hhost. unfold UnixHTTPConnection.__init__.
  rewrite (call_kw_one _ _ _ Hhost). reflexivity.
Qed.

(** Whatever the constructor returns carries the path it was given. *)
Lemma connection_init_socket_path (socket_path : string)
    (kwargs : gmap string PyVal) (c : UnixHTTPConnection.t) :
  UnixHTTPConnection.__init__ socket_path kwargs = Ok c →
  UnixHTTPConnection.socket_path c = socket_path.
Proof.
  unfold UnixHTTPConnection.__init__.
  destruct (call_kw _ kwargs) as [kw|e]; simpl; [|discriminate].
  destruct (HTTPConnection__init__ kw) as [base|e]; simpl; [|discriminate].
  intros [= <-]. reflexivity.
Qed.

(** C6: for every socket path, the constructor of [UnixHTTPConnection]
    stores the path and builds the underlying HTTP connection with the
    host ["localhost"] in place of a host of the caller; the attribute
    [default_port] of the class is [None]. *)
Theorem connection_init_stores_path_and_localhost (socket_path : string)
    (kwargs : gmap string PyVal) (base : HTTPConnection.t) :
  kwargs !! "host" = None →
  HTTPConnection__init__ (<["host" := VStr "localhost"]> kwargs) = Ok base →
  ∃ c, UnixHTTPConnection.__init__ socket_path kwargs = Ok c
       ∧ UnixHTTPConnection.socket_path c = socket_path
       ∧ UnixHTTPConnection.super c = base
       ∧ UnixHTTPConnection.default_port = VNone.
Proof.
  intros Hhost Hbase. exists (UnixHTTPConnection.mk socket_path base).
  rewrite (connection_init_unfold _ _ Hhost), Hbase. auto.
Qed.

(** C10: a keyword [host] of the caller meets the keyword [host] of the
    call of the parent constructor, and the constructor raises
    [TypeError]. *)
Theorem connection_init_host_keyword_TypeError (socket_path : string)
    (kwargs : gmap string PyVal) (v : PyVal) :
  kwargs !! "host" = Some v →
  UnixHTTPConnection.__init__ socket_path kwargs = Raise (TypeError "host").
Proof.
  intros Hhost. unfold UnixHTTPConnection.__init__.
  rewrite (call_kw_duplicate _ _ _ _ _ Hhost). reflexivity.
Qed.

End connection_init.

(** ** UnixHTTPConnectionPool *)

Section pool.
Context `{Framework}.

(** The call of [ConnectionCls] when [conn_kw] names none of the keywords
    written at the two calls on the way. *)
Lemma ConnectionCls_unfold (socket_path : string) (timeout : PyVal)
    (conn_kw : gmap string PyVal) :
  conn_kw !! "socket_path" = None →
  conn_kw !! "timeout" = None →
  conn_kw !! "host" = None →
  UnixHTTPConnectionPool.ConnectionCls socket_path timeout conn_kw =
    (base ← HTTPConnection__init__
              (<["host" := VStr "localhost"]> (<["timeout" := timeout]> conn_kw));
     Ok (UnixHTTPConnection.mk socket_path base)).
Proof.
  intros Hpath Htimeout Hhost. unfold UnixHTTPConnectionPool.ConnectionCls.
  rewrite (call_kw_two _ _ _ _ _ Hpath Htimeout). simpl.
  rewrite delete_insert_eq, delete_id
    by (rewrite lookup_insert_ne by discriminate; exact Hpath).
  apply connection_init_unfold.
  rewrite lookup_insert_ne by discriminate. exact Hhost.
Qed.

Lemma ConnectionCls_socket_path (socket_path : string) (timeout : PyVal)
    (conn_kw : gmap string PyVal) (c : UnixHTTPConnection.t) :
  UnixHTTPConnectionPool.ConnectionCls socket_path timeout conn_kw = Ok c →
  UnixHTTPConnection.socket_path c = socket_path.
Proof.
  unfold UnixHTTPConnectionPool.ConnectionCls.
  destruct (call_kw _ conn_kw) as [kw|e]; simpl; [|discriminate].
  apply connection_init_socket_path.
Qed.

(** One call of [_new_conn]: the counter is one more and one record is
    logged, whether the constructor of the connection returns or
    raises. *)
Lemma pool_new_conn_run (st : UnixHTTPConnectionPool.State) :
  let p := UnixHTTPConnectionPool.self st in
  let b := UnixHTTPConnectionPool.super p in
  let n := HTTPConnectionPool.num_connections b + 1 in
  UnixHTTPConnectionPool._new_conn st =
    (UnixHTTPConnectionPool.ConnectionCls
       (UnixHTTPConnectionPool.socket_path p)
       (Timeout.connect_timeout (HTTPConnectionPool.timeout b))
       (HTTPConnectionPool.conn_kw b),
     UnixHTTPConnectionPool.mkState
       (UnixHTTPConnectionPool.mk
          (UnixHTTPConnectionPool.cls p)
          (UnixHTTPConnectionPool.socket_path p)
          (HTTPConnectionPool.mk n (HTTPConnectionPool.timeout b)
             (HTTPConnectionPool.conn_kw b)))
       (UnixHTTPConnectionPool.log st
        ++ [mkLogRecord DEBUG "Starting new HTTP connection (%d): %s"
              [VInt n; VStr (UnixHTTPConnectionPool.socket_path p)]])).
Proof.
  cbv zeta. unfold UnixHTTPConnectionPool._new_conn.
  cbv [mbind M_bind mret M_ret get lift UnixHTTPConnectionPool.incr_num_connections
       UnixHTTPConnectionPool.log_debug]. simpl.
  destruct (UnixHTTPConnectionPool.ConnectionCls _ _ _); reflexivity.
Qed.

(** C2: each call of [_new_conn] of a pool adds exactly one to
    [num_connections], hands one record to the logger, with the new value
    of the counter and the socket path as arguments, and returns a
    [UnixHTTPConnection] with the socket path of the pool, built with the
    connect timeout of the pool's timeout as its timeout. *)
Theorem pool_new_conn_counts_logs_and_builds
    (st : UnixHTTPConnectionPool.State) (base : HTTPConnection.t) :
  let p := UnixHTTPConnectionPool.self st in
  let b := UnixHTTPConnectionPool.super p in
  let connect_timeout := Timeout.connect_timeout (HTTPConnectionPool.timeout b) in
  let conn_kw := HTTPConnectionPool.conn_kw b in
  HTTPConnection_keeps_timeout →
  conn_kw !! "socket_path" = None →
  conn_kw !! "timeout" = None →
  conn_kw !! "host" = None →
  HTTPConnection__init__
    (<["host" := VStr "localhost"]> (<["timeout" := connect_timeout]> conn_kw))
    = Ok base →
  ∃ conn st',
    UnixHTTPConnectionPool._new_conn st = (Ok conn, st')
    ∧ UnixHTTPConnection.socket_path conn = UnixHTTPConnectionPool.socket_path p
    ∧ UnixHTTPConnection.super conn = base
    ∧ HTTPConnection.timeout (UnixHTTPConnection.super conn) = connect_timeout
    ∧ HTTPConnectionPool.num_connections
        (UnixHTTPConnectionPool.super (UnixHTTPConnectionPool.self st'))
      = HTTPConnectionPool.num_connections b + 1
    ∧ UnixHTTPConnectionPool.log st' =
        UnixHTTPConnectionPool.log st
        ++ [mkLogRecord DEBUG "Starting new HTTP connection (%d): %s"
              [VInt (HTTPConnectionPool.num_connections b + 1);
               VStr (UnixHTTPConnectionPool.socket_path p)]]
    ∧ UnixHTTPConnectionPool.socket_path (UnixHTTPConnectionPool.self st')
      = UnixHTTPConnectionPool.socket_path p
    ∧ UnixHTTPConnectionPool.cls (UnixHTTPConnectionPool.self st')
      = UnixHTTPConnectionPool.cls p
    ∧ HTTPConnectionPool.timeout
        (UnixHTTPConnectionPool.super (UnixHTTPConnectionPool.self st'))
      = HTTPConnectionPool.timeout b
    ∧ HTTPConnectionPool.conn_kw
        (UnixHTTPConnectionPool.super (UnixHTTPConnectionPool.self st'))
      = conn_kw.
Proof.
  intros p b connect_timeout conn_kw Hkeeps Hpath Htimeout Hhost Hbase.
  pose proof (pool_new_conn_run st) as Hrun. cbv zeta in Hrun.
  fold p b connect_timeout conn_kw in Hrun.
  rewrite (ConnectionCls_unfold _ _ _ Hpath Htimeout Hhost), Hbase in Hrun.
  simpl in Hrun.
  eexists _, _. split; [exact Hrun|].
  repeat split.
  simpl. apply (Hkeeps _ _ _ Hbase).
  rewrite lookup_insert_ne by discriminate. apply lookup_insert_eq.
Qed.

(** Whatever [_new_conn] returns is bound to the socket path of the
    pool. *)
Lemma pool_new_conn_socket_path (st st' : UnixHTTPConnectionPool.State)
    (conn : UnixHTTPConnection.t) :
  UnixHTTPConnectionPool._new_conn st = (Ok conn, st') →
  UnixHTTPConnection.socket_path conn
  = UnixHTTPConnectionPool.socket_path (UnixHTTPConnectionPool.self st).
Proof.
  rewrite pool_new_conn_run. intros [= Hconn _].
  exact (ConnectionCls_socket_path _ _ _ _ Hconn).
Qed.

(** [n] calls in a row add [n] to the counter. *)
Lemma pool_new_conn_times_counter (n : nat) (st : UnixHTTPConnectionPool.State) :
  HTTPConnectionPool.num_connections
    (UnixHTTPConnectionPool.super (UnixHTTPConnectionPool.self (new_conn_times n st)))
  = HTTPConnectionPool.num_connections
      (UnixHTTPConnectionPool.super (UnixHTTPConnectionPool.self st))
    + Z.of_nat n.
Proof.
  revert st. induction n as [|n IH]; intros st.
  - simpl. lia.
  - cbn [new_conn_times]. rewrite IH, pool_new_conn_run. simpl. lia.
Qed.

(** C4: constructing a [UnixHostHTTPConnectionPool] with an explicit
    port returns a pool as it does without one; the socket path of the
    pool is the host as passed, and so is the socket path of every
    connection that the pool creates. *)
Theorem host_pool_init_ignores_port (host : string) (port : Z)
    (conn_kw : gmap string PyVal) (base : HTTPConnectionPool.t) :
  conn_kw !! "socket_path" = None →
  conn_kw !! "host" = None →
  HTTPConnectionPool__init__ (<["host" := VStr host]> conn_kw) = Ok base →
  ∃ pool,
    UnixHostHTTPConnectionPool.__init__ host (Some port) conn_kw = Ok pool
    ∧ UnixHostHTTPConnectionPool.__init__ host None conn_kw = Ok pool
    ∧ UnixHTTPConnectionPool.socket_path pool = host
    ∧ UnixHTTPConnectionPool.cls pool = UnixHostHTTPConnectionPoolCls
    ∧ UnixHTTPConnectionPool.super pool = base
    ∧ ∀ log conn st',
        UnixHTTPConnectionPool._new_conn (UnixHTTPConnectionPool.mkState pool log)
          = (Ok conn, st') →
        UnixHTTPConnection.socket_path conn = host.
Proof.
  intros Hpath Hhost Hbase.
  exists (UnixHTTPConnectionPool.mk UnixHostHTTPConnectionPoolCls host base).
  assert (Hinit : ∀ port', UnixHostHTTPConnectionPool.__init__ host port' conn_kw
            = Ok (UnixHTTPConnectionPool.mk UnixHostHTTPConnectionPoolCls host base)).
  { intros port'. unfold UnixHostHTTPConnectionPool.__init__,
      UnixHTTPConnectionPool.__init__.
    rewrite Hpath, (call_kw_one _ _ _ Hhost). simpl. rewrite Hbase. reflexivity. }
  repeat split; try apply Hinit.
  intros log conn st' Hrun. apply pool_new_conn_socket_path in Hrun. exact Hrun.
Qed.

End pool.

(** ** repr() and __str__ *)

Lemma append_cons (c : ascii) (s t : string) :
  String c s +:+ t = String c (s +:+ t).
Proof. reflexivity. Qed.

Lemma append_empty (t : string) : "" +:+ t = t.
Proof. reflexivity. Qed.

Lemma length_append (s t : string) :
  String.length (s +:+ t) = (String.length s + String.length t)%nat.
Proof.
  induction s as [|c s IH]; [reflexivity|].
  rewrite append_cons. simpl. rewrite IH. reflexivity.
Qed.

Lemma append_assoc (s t u : string) : (s +:+ t) +:+ u = s +:+ (t +:+ u).
Proof.
  induction s as [|c s IH]; [reflexivity|].
  rewrite !append_cons, IH. reflexivity.
Qed.

Lemma repr_char_plain (c : ascii) :
  plain_char c = true → repr_char squote c = String c "".
Proof.
  destruct c as [[] [] [] [] [] [] [] []]; vm_compute; congruence.
Qed.

Lemma repr_char_nonempty (quote c : ascii) :
  (1 ≤ String.length (repr_char quote c))%nat.
Proof.
  unfold repr_char, hex_escape.
  repeat match goal with |- context [if ?b then _ else _] => destruct b end;
    simpl; lia.
Qed.

Lemma repr_body_plain (s : string) :
  plain s = true → repr_body squote s = s.
Proof.
  induction s as [|c s IH]; [reflexivity|].
  simpl. intros [Hc Hs]%andb_true_iff.
  rewrite (repr_char_plain _ Hc), (IH Hs). reflexivity.
Qed.

Lemma contains_squote_plain (s : string) :
  plain s = true → contains squote s = false.
Proof.
  induction s as [|c s IH]; [reflexivity|].
  simpl. intros [Hc Hs]%andb_true_iff. rewrite (IH Hs), orb_false_r.
  destruct c as [[] [] [] [] [] [] [] []]; vm_compute in Hc |- *; congruence.
Qed.

Lemma repr_body_length (quote : ascii) (s : string) :
  (String.length s ≤ String.length (repr_body quote s))%nat.
Proof.
  induction s as [|c s IH]; [reflexivity|].
  cbn [repr_body]. rewrite length_append.
  pose proof (repr_char_nonempty quote c). simpl. lia.
Qed.

(** [repr] of a plain string is the string between single quotes. *)
Lemma py_repr_plain (s : string) :
  plain s = true → py_repr s = String squote (s +:+ String squote "").
Proof.
  intros Hs. unfold py_repr.
  rewrite (contains_squote_plain _ Hs). simpl.
  rewrite (repr_body_plain _ Hs). reflexivity.
Qed.

(** [repr] always adds the two quotes. *)
Lemma py_repr_length (s : string) :
  (String.length s + 2 ≤ String.length (py_repr s))%nat.
Proof.
  unfold py_repr. cbn [String.length]. rewrite length_append.
  match goal with |- context [repr_body ?q s] =>
    pose proof (repr_body_length q s) end.
  simpl. lia.
Qed.

(** C5, as the code has it: [str(pool)] is the name of the class of the
    pool, then ["(socket_path="], then [repr] of the socket path, then
    [")"].  [repr] puts the path between quotes and escapes what is
    special in it, so that the rendering is always at least two
    characters longer than the path; a path of printable ASCII without
    quote and backslash stands between single quotes as it is. *)
Theorem pool_str_format_repr (pool : UnixHTTPConnectionPool.t) :
  let path := UnixHTTPConnectionPool.socket_path pool in
  let name := __name__ (UnixHTTPConnectionPool.cls pool) in
  UnixHTTPConnectionPool.__str__ pool
    = name +:+ "(socket_path=" +:+ py_repr path +:+ ")"
  ∧ (String.length path + 2 ≤ String.length (py_repr path))%nat
  ∧ (plain path = true →
     UnixHTTPConnectionPool.__str__ pool
       = name +:+ "(socket_path='" +:+ path +:+ "')").
Proof.
  cbv zeta. split; [reflexivity|]. split; [apply py_repr_length|].
  intros Hplain. unfold UnixHTTPConnectionPool.__str__.
  rewrite (py_repr_plain _ Hplain). f_equal.
  rewrite (append_cons squote), append_assoc. reflexivity.
Qed.

(** ** UnixHTTPPoolManager.__init__ *)

Lemma registry_entry_setitem_eq (h h' : Heap) (d : positive) (key : string)
    (value : PyRef) :
  dict_setitem d key value h = (Ok tt, h') →
  registry_entry h' d key = Some value.
Proof.
  unfold dict_setitem, registry_entry.
  destruct (h !! d) as [m|]; [|discriminate].
  intros [= <-]. rewrite lookup_insert_eq. simpl. apply lookup_insert_eq.
Qed.

(** Writing one key of one dictionary leaves every other entry of the
    store as it is, also when the write raises. *)
Lemma registry_entry_setitem_ne (h h' : Heap) (d d' : positive)
    (key key' : string) (value : PyRef) (r : Result unit) :
  dict_setitem d key value h = (r, h') →
  d' ≠ d ∨ key' ≠ key →
  registry_entry h' d' key' = registry_entry h d' key'.
Proof.
  unfold dict_setitem, registry_entry.
  destruct (h !! d) as [m|] eqn:Hd; intros [= <- <-]; [|reflexivity].
  intros Hne. destruct (decide (d' = d)) as [->|Hdd].
  - rewrite lookup_insert_eq, Hd. simpl.
    destruct Hne as [?|Hkey]; [done|].
    apply lookup_insert_ne. congruence.
  - rewrite lookup_insert_ne by congruence. reflexivity.
Qed.

Lemma dict_getitem_heap (h h' : Heap) (d : positive) (key : string)
    (r : Result PyRef) :
  dict_getitem d key h = (r, h') → h' = h.
Proof.
  unfold dict_getitem.
  destruct (h !! d) as [m|]; [destruct (m !! key)|]; intros [= _ <-]; reflexivity.
Qed.

Lemma dict_getitem_entry (h : Heap) (d : positive) (key : string) (v : PyRef) :
  registry_entry h d key = Some v → dict_getitem d key h = (Ok v, h).
Proof.
  unfold dict_getitem, registry_entry.
  destruct (h !! d) as [m|]; simpl; [|discriminate].
  intros ->. reflexivity.
Qed.

Lemma dict_setitem_allocated (h : Heap) (d : positive) (key : string)
    (value : PyRef) (m : gmap string PyRef) :
  h !! d = Some m →
  dict_setitem d key value h = (Ok tt, <[d := <[key := value]> m]> h).
Proof. intros Hd. unfold dict_setitem. rewrite Hd. reflexivity. Qed.

Section manager.
Context `{Framework}.

(** C1: after the construction of a [UnixHTTPPoolManager], the entry of
    [key_fn_by_scheme] for ["http+unix"] is the very object that is the
    entry for ["http"], and the entry of [pool_classes_by_scheme] for
    ["http+unix"] is the class [UnixHostHTTPConnectionPool].  The parent
    constructor has given the manager its two registries, which are two
    dictionaries, with a key function for ["http"]. *)
Theorem manager_init_registers_scheme (num_pools : Z)
    (headers : option (gmap string string))
    (connection_pool_kw : gmap string PyVal) (h h1 : Heap)
    (self : PoolManager.t) (classes : gmap string PyRef) (http_key_fn : PyRef) :
  PoolManager__init__ num_pools headers connection_pool_kw h = (Ok self, h1) →
  PoolManager.pool_classes_by_scheme self ≠ PoolManager.key_fn_by_scheme self →
  h1 !! PoolManager.pool_classes_by_scheme self = Some classes →
  registry_entry h1 (PoolManager.key_fn_by_scheme self) "http" = Some http_key_fn →
  ∃ h2,
    UnixHTTPPoolManager.__init__ num_pools headers connection_pool_kw h
      = (Ok self, h2)
    ∧ registry_entry h2 (PoolManager.key_fn_by_scheme self) "http+unix"
      = Some http_key_fn
    ∧ registry_entry h2 (PoolManager.key_fn_by_scheme self) "http"
      = Some http_key_fn
    ∧ registry_entry h2 (PoolManager.pool_classes_by_scheme self) "http+unix"
      = Some (RClass UnixHostHTTPConnectionPoolCls).
Proof.
  intros Hparent Hdistinct Hclasses Hhttp.
  destruct self as [c k]. simpl in *.
  pose proof (dict_setitem_allocated h1 c UnixHostHTTPConnectionPool.scheme
                (RClass UnixHostHTTPConnectionPoolCls) classes Hclasses) as Hset1.
  set (ha := <[c := _]> h1) in Hset1.
  assert (Hhttp_a : registry_entry ha k "http" = Some http_key_fn).
  { rewrite <- Hhttp. eapply registry_entry_setitem_ne; [exact Hset1|].
    left. congruence. }
  pose proof (dict_getitem_entry _ _ _ _ Hhttp_a) as Hget.
  assert (∃ keys, ha !! k = Some keys) as [keys Hkeys].
  { unfold registry_entry in Hhttp_a. destruct (ha !! k); [eauto|discriminate]. }
  pose proof (dict_setitem_allocated ha k UnixHostHTTPConnectionPool.scheme
                http_key_fn keys Hkeys) as Hset2.
  set (hb := <[k := _]> ha) in Hset2.
  exists hb. split.
  - unfold UnixHTTPPoolManager.__init__. cbv [mbind M_bind].
    rewrite Hparent. simpl. rewrite Hset1, Hget, Hset2. reflexivity.
  - split; [exact (registry_entry_setitem_eq _ _ _ _ _ Hset2)|]. split.
    + rewrite <- Hhttp_a. eapply registry_entry_setitem_ne; [exact Hset2|].
      right. discriminate.
    + etrans; [|exact (registry_entry_setitem_eq _ _ _ _ _ Hset1)].
      eapply registry_entry_setitem_ne; [exact Hset2|]. left. congruence.
Qed.

(** C9: the construction of a [UnixHTTPPoolManager] changes no entry of
    a registry other than the one for ["http+unix"]: under every other
    scheme, [pool_classes_by_scheme] and [key_fn_by_scheme] hold what
    they hold for the [PoolManager] built from the same arguments, and
    so does every dictionary of the store; the manager is the one that
    the parent constructor has built. *)
Theorem manager_init_frame (num_pools : Z)
    (headers : option (gmap string string))
    (connection_pool_kw : gmap string PyVal) (h h1 : Heap)
    (generic : PoolManager.t) :
  PoolManager__init__ num_pools headers connection_pool_kw h = (Ok generic, h1) →
  ∃ r h2,
    UnixHTTPPoolManager.__init__ num_pools headers connection_pool_kw h = (r, h2)
    ∧ (∀ self, r = Ok self → self = generic)
    ∧ ∀ scheme, scheme ≠ "http+unix" →
        registry_entry h2 (PoolManager.pool_classes_by_scheme generic) scheme
        = registry_entry h1 (PoolManager.pool_classes_by_scheme generic) scheme
        ∧ registry_entry h2 (PoolManager.key_fn_by_scheme generic) scheme
          = registry_entry h1 (PoolManager.key_fn_by_scheme generic) scheme
        ∧ ∀ d, registry_entry h2 d scheme = registry_entry h1 d scheme.
Proof.
  intros Hparent.
  unfold UnixHTTPPoolManager.__init__. cbv [mbind M_bind]. rewrite Hparent.
  destruct (dict_setitem (PoolManager.pool_classes_by_scheme generic) _ _ h1)
    as [r1 ha] eqn:Hset1.
  assert (Hframe1 : ∀ d scheme, scheme ≠ "http+unix" →
            registry_entry ha d scheme = registry_entry h1 d scheme).
  { intros d scheme Hs. eapply registry_entry_setitem_ne; [exact Hset1|].
    right. exact Hs. }
  destruct r1 as [[]|e1].
  2:{ eexists _, _. split; [reflexivity|]. split; [discriminate|].
      intros scheme Hs. auto. }
  destruct (dict_getitem (PoolManager.key_fn_by_scheme generic) "http" ha)
    as [r2 ha'] eqn:Hget.
  apply dict_getitem_heap in Hget as Hha. subst ha'.
  destruct r2 as [key_fn|e2].
  2:{ eexists _, _. split; [reflexivity|]. split; [discriminate|].
      intros scheme Hs. auto. }
  destruct (dict_setitem (PoolManager.key_fn_by_scheme generic) _ key_fn ha)
    as [r3 hb] eqn:Hset2.
  assert (Hframe2 : ∀ d scheme, scheme ≠ "http+unix" →
            registry_entry hb d scheme = registry_entry h1 d scheme).
  { intros d scheme Hs. rewrite <- (Hframe1 d scheme Hs).
    eapply registry_entry_setitem_ne; [exact Hset2|]. right. exact Hs. }
  destruct r3 as [[]|e3]; simpl.
  - eexists _, _. split; [reflexivity|]. split; [intros self [= <-]; reflexivity|].
    intros scheme Hs. auto.
  - eexists _, _. split; [reflexivity|]. split; [discriminate|].
    intros scheme Hs. auto.
Qed.

End manager.

(** ** The socket layer *)

Lemma add_events_nil (w : World) : add_events w [] = w.
Proof. destruct w. unfold add_events. simpl. rewrite app_nil_r. reflexivity. Qed.

Lemma add_events_app (w : World) (evs evs' : list SockEvent) :
  add_events (add_events w evs) evs' = add_events w (evs ++ evs').
Proof. unfold add_events. simpl. rewrite app_assoc. reflexivity. Qed.

Lemma socket_run (family : AddressFamily) (kind : SocketKind) (w : World) :
  socket.socket family kind w =
    match socket_errno (os w) with
    | Some e => (Raise (OSError e), add_events w [EvSocket family kind])
    | None =>
        (Ok (next_fd w),
         mkWorld (os w) (S (next_fd w)) ({[next_fd w]} ∪ open_fds w)
           (timeouts w) (connected w) (trace w ++ [EvSocket family kind]))
    end.
Proof.
  unfold socket.socket. cbv [mbind M_bind emit get put lift mret M_ret]. simpl.
  destruct (socket_errno (os w)); reflexivity.
Qed.

Lemma setsockopt_run (sock : nat) (opt : SockOpt) (w : World) :
  socket.setsockopt sock opt w =
    (match setsockopt_errno (os w) opt with
     | Some e => Raise (OSError e)
     | None => Ok tt
     end, add_events w [EvSetsockopt sock opt]).
Proof.
  unfold socket.setsockopt. cbv [mbind M_bind emit get put lift mret M_ret]. simpl.
  destruct (setsockopt_errno (os w) opt); reflexivity.
Qed.

Lemma settimeout_run (sock : nat) (value : PyVal) (w : World) :
  socket.settimeout sock value w =
    match socket.check_timeout value with
    | Raise e => (Raise e, add_events w [EvSettimeout sock value])
    | Ok _ =>
        (Ok tt,
         mkWorld (os w) (next_fd w) (open_fds w) (<[sock := value]> (timeouts w))
           (connected w) (trace w ++ [EvSettimeout sock value]))
    end.
Proof.
  unfold socket.settimeout. cbv [mbind M_bind emit get put lift mret M_ret]. simpl.
  destruct (socket.check_timeout value); reflexivity.
Qed.

Lemma connect_run (sock : nat) (address : string) (w : World) :
  socket.connect sock address w =
    match connect_errno (os w) address with
    | Some e => (Raise (OSError e), add_events w [EvConnect sock address])
    | None =>
        (Ok tt,
         mkWorld (os w) (next_fd w) (open_fds w) (timeouts w)
           (<[sock := address]> (connected w))
           (trace w ++ [EvConnect sock address]))
    end.
Proof.
  unfold socket.connect. cbv [mbind M_bind emit get put lift mret M_ret]. simpl.
  destruct (connect_errno (os w) address); reflexivity.
Qed.

(** Setting the options: the calls made are the options in their order,
    up to the first that fails; nothing but the trace changes. *)
Lemma setsockopt_each_run (sock : nat) (opts : list SockOpt) (w : World) :
  ∃ evs,
    evs `prefix_of` map (EvSetsockopt sock) opts
    ∧ snd (setsockopt_each sock opts w) = add_events w evs
    ∧ (fst (setsockopt_each sock opts w) = Ok tt →
       evs = map (EvSetsockopt sock) opts)
    ∧ (Forall (λ opt, setsockopt_errno (os w) opt = None) opts →
       fst (setsockopt_each sock opts w) = Ok tt).
Proof.
  revert w. induction opts as [|opt rest IH]; intros w.
  - exists []. simpl. rewrite add_events_nil. auto.
  - cbn [setsockopt_each]. cbv [mbind M_bind]. rewrite setsockopt_run.
    destruct (setsockopt_errno (os w) opt) as [e|] eqn:Hopt.
    + exists [EvSetsockopt sock opt]. simpl. repeat split.
      * apply prefix_cons, prefix_nil.
      * discriminate.
      * intros Hall. apply Forall_cons in Hall as [Hok _]. congruence.
    + destruct (IH (add_events w [EvSetsockopt sock opt])) as (evs & Hpre & Hw & Hok & Hall).
      exists (EvSetsockopt sock opt :: evs). repeat split.
      * simpl. apply prefix_cons. exact Hpre.
      * rewrite Hw, add_events_app. reflexivity.
      * intros Hr. simpl. f_equal. apply Hok. exact Hr.
      * intros Hforall. apply Forall_cons in Hforall as [_ Hrest].
        apply Hall. exact Hrest.
Qed.

Lemma set_socket_options_run (sock : nat) (options : option (list SockOpt))
    (w : World) :
  ∃ evs,
    evs `prefix_of` map (EvSetsockopt sock) (default [] options)
    ∧ snd (_set_socket_options sock options w) = add_events w evs
    ∧ (fst (_set_socket_options sock options w) = Ok tt →
       evs = map (EvSetsockopt sock) (default [] options))
    ∧ (Forall (λ opt, setsockopt_errno (os w) opt = None) (default [] options) →
       fst (_set_socket_options sock options w) = Ok tt).
Proof.
  destruct options as [opts|]; simpl.
  - apply setsockopt_each_run.
  - exists []. rewrite add_events_nil. auto.
Qed.

(** ** UnixHTTPConnection._new_conn *)

Ltac split5 := split; [|split; [|split; [|split]]].

(** One run of [_new_conn], on every path through it. *)
Lemma new_conn_run (self : UnixHTTPConnection.t) (w : World) :
  let path := UnixHTTPConnection.socket_path self in
  let steps := new_conn_steps self (next_fd w) in
  let r := fst (UnixHTTPConnection._new_conn self w) in
  let w' := snd (UnixHTTPConnection._new_conn self w) in
  ∃ done,
    trace w' = trace w ++ done
    ∧ done `prefix_of` steps
    ∧ (socket_errno (os w) = None → open_fds w' = {[next_fd w]} ∪ open_fds w)
    ∧ (∀ sock, r = Ok sock →
         sock = next_fd w ∧ done = steps ∧ connected w' !! sock = Some path
         ∧ connect_errno (os w) path = None)
    ∧ (reaches_connect self w →
         done = steps
         ∧ r = match connect_errno (os w) path with
               | Some e => Raise (OSError e)
               | None => Ok (next_fd w)
               end).
Proof.
  cbv zeta. unfold UnixHTTPConnection._new_conn, new_conn_steps, reaches_connect.
  destruct self as [path [host timeout options]]. simpl.
  cbv [mbind M_bind]. rewrite socket_run.
  destruct (socket_errno (os w)) as [e|] eqn:Hsocket.
  { exists [EvSocket AF_UNIX SOCK_STREAM]. simpl. split5.
    - reflexivity.
    - apply prefix_cons, prefix_nil.
    - discriminate.
    - discriminate.
    - intros (? & _). discriminate. }
  set (w1 := mkWorld _ _ _ _ _ _).
  destruct (set_socket_options_run (next_fd w) options w1)
    as (evs & Hpre & Hw2 & Hok & Hall).
  destruct (_set_socket_options (next_fd w) options w1) as [r2 w2].
  simpl in Hw2, Hok, Hall. subst w2.
  destruct r2 as [[]|e2].
  2:{ exists (EvSocket AF_UNIX SOCK_STREAM :: evs). simpl. split5.
      - rewrite <- app_assoc. reflexivity.
      - apply prefix_cons, prefix_app_r. exact Hpre.
      - reflexivity.
      - discriminate.
      - intros (_ & Hopts & _). specialize (Hall Hopts). discriminate. }
  specialize (Hok eq_refl). subst evs.
  set (sets := map (EvSetsockopt (next_fd w)) (default [] options)).
  destruct (is_SOCKET_GLOBAL_DEFAULT_TIMEOUT timeout) eqn:Hdefault.
  - cbv [mret M_ret]. rewrite connect_run. simpl.
    exists (EvSocket AF_UNIX SOCK_STREAM :: sets ++ [EvConnect (next_fd w) path]).
    destruct (connect_errno (os w) path) as [e|] eqn:Hconnect; simpl; split5;
      try (rewrite <- !app_assoc; reflexivity); try reflexivity; try discriminate;
      try (intros _; split; reflexivity).
    intros sock [= <-]. rewrite lookup_insert_eq. auto.
  - rewrite settimeout_run.
    destruct (socket.check_timeout timeout) as [[]|e3] eqn:Hcheck.
    2:{ exists (EvSocket AF_UNIX SOCK_STREAM
                :: sets ++ [EvSettimeout (next_fd w) timeout]).
        simpl. split5.
        - rewrite <- !app_assoc. reflexivity.
        - apply prefix_cons, prefix_app, prefix_cons, prefix_nil.
        - reflexivity.
        - discriminate.
        - intros (_ & _ & [?|?]); discriminate. }
    rewrite connect_run. simpl.
    exists (EvSocket AF_UNIX SOCK_STREAM
            :: sets ++ [EvSettimeout (next_fd w) timeout]
               ++ [EvConnect (next_fd w) path]).
    destruct (connect_errno (os w) path) as [e|] eqn:Hconnect; simpl; split5;
      try (rewrite <- !app_assoc; reflexivity); try reflexivity; try discriminate;
      try (intros _; split; reflexivity).
    intros sock [= <-]. rewrite lookup_insert_eq. auto.
Qed.

(** No step of opening a connection is a [close]. *)
Lemma new_conn_steps_no_close (self : UnixHTTPConnection.t) (sock fd : nat) :
  ¬ closes fd (new_conn_steps self sock).
Proof.
  unfold closes, new_conn_steps.
  rewrite !elem_of_app, !list_elem_of_In, in_map_iff, <- !list_elem_of_In.
  intros [Hin|[(opt & Hopt & _)|[Hin|Hin]]].
  - apply list_elem_of_singleton in Hin. discriminate.
  - discriminate.
  - destruct (is_SOCKET_GLOBAL_DEFAULT_TIMEOUT _).
    + apply elem_of_nil in Hin. exact Hin.
    + apply list_elem_of_singleton in Hin. discriminate.
  - apply list_elem_of_singleton in Hin. discriminate.
Qed.

Lemma prefix_no_close (done steps : list SockEvent) (fd : nat) :
  done `prefix_of` steps → ¬ closes fd steps → ¬ closes fd done.
Proof.
  intros [rest ->] Hsteps Hdone. apply Hsteps. unfold closes in *.
  apply elem_of_app. left. exact Hdone.
Qed.

(** Among the steps, the timeout is set exactly when it is not the
    sentinel. *)
Lemma new_conn_steps_settimeout (self : UnixHTTPConnection.t) (sock : nat) :
  let t := HTTPConnection.timeout (UnixHTTPConnection.super self) in
  (∃ value, EvSettimeout sock value ∈ new_conn_steps self sock)
  ↔ is_SOCKET_GLOBAL_DEFAULT_TIMEOUT t = false.
Proof.
  cbv zeta. unfold new_conn_steps. split.
  - intros (value & Hin).
    rewrite !elem_of_app, !list_elem_of_In, in_map_iff, <- !list_elem_of_In in Hin.
    destruct Hin as [Hin|[(opt & Hopt & _)|[Hin|Hin]]].
    + apply list_elem_of_singleton in Hin. discriminate.
    + discriminate.
    + destruct (is_SOCKET_GLOBAL_DEFAULT_TIMEOUT _); [|reflexivity].
      apply elem_of_nil in Hin. destruct Hin.
    + apply list_elem_of_singleton in Hin. discriminate.
  - intros ->. eexists. rewrite !elem_of_app. right. right. left.
    apply list_elem_of_singleton. reflexivity.
Qed.

(** C3: opening a connection makes its calls in this order: a stream
    socket of the family [AF_UNIX] is created; the configured options are
    set on it; its timeout is set exactly when the configured timeout is
    not the sentinel; it is connected to the socket path, and it is
    returned.  A run stops at the first call that raises, and where none
    does it returns the connected socket. *)
Theorem new_conn_step_order (self : UnixHTTPConnection.t) (w : World) :
  let path := UnixHTTPConnection.socket_path self in
  let timeout := HTTPConnection.timeout (UnixHTTPConnection.super self) in
  let steps := new_conn_steps self (next_fd w) in
  let r := fst (UnixHTTPConnection._new_conn self w) in
  let w' := snd (UnixHTTPConnection._new_conn self w) in
  ∃ done,
    trace w' = trace w ++ done
    ∧ done `prefix_of` steps
    ∧ (∀ sock, r = Ok sock →
         sock = next_fd w ∧ done = steps
         ∧ connected w' !! sock = Some path
         ∧ sock ∈ open_fds w'
         ∧ ((∃ value, EvSettimeout sock value ∈ done)
            ↔ is_SOCKET_GLOBAL_DEFAULT_TIMEOUT timeout = false))
    ∧ (reaches_connect self w → connect_errno (os w) path = None →
       r = Ok (next_fd w)).
Proof.
  cbv zeta.
  destruct (new_conn_run self w) as (done & Htrace & Hpre & Hopen & Hok & Hreach).
  exists done. split; [exact Htrace|]. split; [exact Hpre|]. split.
  - intros sock Hr. destruct (Hok sock Hr) as (-> & -> & Hconn & _).
    split; [reflexivity|]. split; [reflexivity|]. split; [exact Hconn|]. split.
    + rewrite Hopen; [apply elem_of_union_l, elem_of_singleton; reflexivity|].
      destruct (socket_errno (os w)) as [e|] eqn:Hsocket; [|reflexivity].
      exfalso. revert Hr. unfold UnixHTTPConnection._new_conn.
      cbv [mbind M_bind]. rewrite socket_run, Hsocket. discriminate.
    + apply new_conn_steps_settimeout.
  - intros Hreaches Hconnect. destruct (Hreach Hreaches) as (_ & ->).
    rewrite Hconnect. reflexivity.
Qed.

(** C7, as the code has it: where [connect] fails, as it does at a path
    that does not exist, and the calls before it succeed, opening raises
    the [OSError] of the failed [connect] as it is.  [_new_conn] closes
    nothing: no call of a run is a [close], and the socket that it has
    created is still open when the exception leaves. *)
Theorem new_conn_connect_failure_keeps_socket_open
    (self : UnixHTTPConnection.t) (w : World) (errno : Errno) :
  let path := UnixHTTPConnection.socket_path self in
  let r := fst (UnixHTTPConnection._new_conn self w) in
  let w' := snd (UnixHTTPConnection._new_conn self w) in
  reaches_connect self w →
  connect_errno (os w) path = Some errno →
  r = Raise (OSError errno)
  ∧ open_fds w' = {[next_fd w]} ∪ open_fds w
  ∧ next_fd w ∈ open_fds w'
  ∧ trace w' = trace w ++ new_conn_steps self (next_fd w)
  ∧ ∀ fd, ¬ closes fd (new_conn_steps self (next_fd w)).
Proof.
  cbv zeta. intros Hreaches Hconnect.
  destruct (new_conn_run self w) as (done & Htrace & Hpre & Hopen & Hok & Hreach).
  destruct (Hreach Hreaches) as (-> & Hr). rewrite Hconnect in Hr.
  destruct Hreaches as (Hsocket & _). specialize (Hopen Hsocket).
  split; [exact Hr|]. split; [exact Hopen|]. split.
  { rewrite Hopen. apply elem_of_union_l, elem_of_singleton. reflexivity. }
  split; [exact Htrace|]. intros fd. apply new_conn_steps_no_close.
Qed.

(** C7, as the spec has it, fails: at a path that does not exist the
    socket that [_new_conn] has created stays open. *)
Lemma new_conn_nonexistent_path_leaks :
  connect_errno (os world_nothing_listens)
    (UnixHTTPConnection.socket_path conn_nowhere) = Some ENOENT
  ∧ fst (UnixHTTPConnection._new_conn conn_nowhere world_nothing_listens)
    = Raise (OSError ENOENT)
  ∧ 0%nat ∈ open_fds
      (snd (UnixHTTPConnection._new_conn conn_nowhere world_nothing_listens))
  ∧ ¬ fails_without_leak conn_nowhere world_nothing_listens.
Proof.
  assert (Hreaches : reaches_connect conn_nowhere world_nothing_listens).
  { split; [reflexivity|]. split; [constructor|]. left. reflexivity. }
  destruct (new_conn_run conn_nowhere world_nothing_listens)
    as (done & _ & _ & Hopen & _ & Hreach).
  destruct (Hreach Hreaches) as (_ & Hr). specialize (Hopen eq_refl).
  split; [reflexivity|]. split; [exact Hr|]. split.
  - rewrite Hopen. apply elem_of_union_l, elem_of_singleton. reflexivity.
  - intros (_ & Hleak). rewrite Hopen in Hleak.
    change (open_fds world_nothing_listens) with (∅ : gset nat) in Hleak.
    apply (not_elem_of_empty (C := gset nat) 0%nat). rewrite <- Hleak.
    apply elem_of_union_l, elem_of_singleton. reflexivity.
Qed.

(** ** The classes on the reference framework *)

Lemma Reference_keeps_timeout :
  @HTTPConnection_keeps_timeout Reference.framework.
Proof.
  intros kw base t. simpl. unfold Reference.HTTPConnection__init__.
  destruct (kw !! "host") as [[]|]; try discriminate.
  intros [= <-] ->. reflexivity.
Qed.

Example py_repr_plain_path :
  py_repr "/var/run/server.sock" = "'/var/run/server.sock'".
Proof. reflexivity. Qed.

(** A single quote in the path makes [repr] use double quotes. *)
Example py_repr_single_quote :
  py_repr "/tmp/it's" = String dquote ("/tmp/it's" +:+ String dquote "").
Proof. reflexivity. Qed.

(** With both quotes in the path, the single quote is escaped. *)
Example py_repr_both_quotes :
  py_repr (String dquote "a'b") = "'" +:+ String dquote "a\'b'".
Proof. reflexivity. Qed.

(** A backslash is doubled, a newline and a control character are
    escaped. *)
Example py_repr_escapes :
  py_repr ("a\b" +:+ String "010" (String "001" "c")) = "'a\\b\n\x01c'".
Proof. reflexivity. Qed.

Example pool_str_server_sock :
  UnixHTTPConnectionPool.__str__ pool_server_sock
  = "UnixHTTPConnectionPool(socket_path='/var/run/server.sock')".
Proof. reflexivity. Qed.

(** C5, as the spec has it, fails: the path is rendered between quotes. *)
Lemma pool_str_is_not_bare_path :
  str_with_bare_path pool_server_sock
    = "UnixHTTPConnectionPool(socket_path=/var/run/server.sock)"
  ∧ UnixHTTPConnectionPool.__str__ pool_server_sock
    = "UnixHTTPConnectionPool(socket_path='/var/run/server.sock')"
  ∧ UnixHTTPConnectionPool.__str__ pool_server_sock
    ≠ str_with_bare_path pool_server_sock.
Proof.
  split; [reflexivity|]. split; [reflexivity|]. vm_compute. discriminate.
Qed.

Lemma pool_str_format_repr_witness :
  plain "/var/run/server.sock" = true
  ∧ UnixHTTPConnectionPool.__str__ pool_server_sock
    = "UnixHTTPConnectionPool" +:+ "(socket_path='" +:+ "/var/run/server.sock"
      +:+ "')".
Proof.
  split; [reflexivity|].
  apply (proj2 (proj2 (pool_str_format_repr pool_server_sock))). reflexivity.
Defined.

Lemma connection_init_stores_path_and_localhost_witness :
  ∃ c, @UnixHTTPConnection.__init__ Reference.framework "/var/run/server.sock" ∅
       = Ok c
       ∧ UnixHTTPConnection.socket_path c = "/var/run/server.sock"
       ∧ UnixHTTPConnection.super c
         = HTTPConnection.mk "localhost" SOCKET_GLOBAL_DEFAULT_TIMEOUT None
       ∧ UnixHTTPConnection.default_port = VNone.
Proof.
  apply (@connection_init_stores_path_and_localhost Reference.framework
           "/var/run/server.sock" ∅
           (HTTPConnection.mk "localhost" SOCKET_GLOBAL_DEFAULT_TIMEOUT None));
    reflexivity.
Defined.

Lemma connection_init_host_keyword_TypeError_witness :
  @UnixHTTPConnection.__init__ Reference.framework "/var/run/server.sock"
    (<["host" := VStr "example.org"]> ∅)
  = Raise (TypeError "host").
Proof.
  apply (@connection_init_host_keyword_TypeError Reference.framework
           "/var/run/server.sock" (<["host" := VStr "example.org"]> ∅)
           (VStr "example.org")).
  reflexivity.
Defined.

Lemma pool_new_conn_counts_logs_and_builds_witness :
  ∃ conn st',
    @UnixHTTPConnectionPool._new_conn Reference.framework state_server_sock
      = (Ok conn, st')
    ∧ UnixHTTPConnection.socket_path conn = "/var/run/server.sock"
    ∧ HTTPConnection.timeout (UnixHTTPConnection.super conn) = VInt 3
    ∧ HTTPConnectionPool.num_connections
        (UnixHTTPConnectionPool.super (UnixHTTPConnectionPool.self st')) = 1
    ∧ UnixHTTPConnectionPool.log st'
      = [mkLogRecord DEBUG "Starting new HTTP connection (%d): %s"
           [VInt 1; VStr "/var/run/server.sock"]].
Proof.
  pose proof (@pool_new_conn_counts_logs_and_builds Reference.framework
                state_server_sock (HTTPConnection.mk "localhost" (VInt 3) None)
                Reference_keeps_timeout) as Hnew.
  cbv zeta in Hnew.
  destruct Hnew as (conn & st' & Hrun & Hpath & _ & Htimeout & Hcount & Hlog & _);
    try reflexivity.
  exists conn, st'. auto.
Defined.

Lemma host_pool_init_ignores_port_witness :
  ∃ pool,
    @UnixHostHTTPConnectionPool.__init__ Reference.framework
      "%2Fvar%2Frun%2Fserver.sock" (Some 8080) ∅ = Ok pool
    ∧ UnixHTTPConnectionPool.socket_path pool = "%2Fvar%2Frun%2Fserver.sock".
Proof.
  destruct (@host_pool_init_ignores_port Reference.framework
              "%2Fvar%2Frun%2Fserver.sock" 8080 ∅
              (HTTPConnectionPool.mk 0
                 (Timeout.mk SOCKET_GLOBAL_DEFAULT_TIMEOUT SOCKET_GLOBAL_DEFAULT_TIMEOUT)
                 ∅))
    as (pool & Hinit & _ & Hpath & _); try reflexivity.
  exists pool. auto.
Defined.

Lemma new_conn_step_order_witness :
  fst (UnixHTTPConnection._new_conn conn_listening world_all_listen) = Ok 3%nat.
Proof.
  destruct (new_conn_step_order conn_listening world_all_listen)
    as (done & _ & _ & _ & Hreturns).
  apply Hreturns; [|reflexivity].
  split; [reflexivity|]. split; [|right; reflexivity].
  repeat constructor.
Defined.

Example new_conn_listening_trace :
  trace (snd (UnixHTTPConnection._new_conn conn_listening world_all_listen))
  = [EvSocket AF_UNIX SOCK_STREAM; EvSetsockopt 3 (6, 1, OInt 1);
     EvSettimeout 3 (VInt 5); EvConnect 3 "/var/run/server.sock"].
Proof. reflexivity. Qed.

Example new_conn_nowhere_trace :
  trace (snd (UnixHTTPConnection._new_conn conn_nowhere world_nothing_listens))
  = [EvSocket AF_UNIX SOCK_STREAM; EvConnect 0 "/nonexistent.sock"].
Proof. reflexivity. Qed.

Lemma new_conn_connect_failure_keeps_socket_open_witness :
  fst (UnixHTTPConnection._new_conn conn_nowhere world_nothing_listens)
    = Raise (OSError ENOENT)
  ∧ 0%nat ∈ open_fds
      (snd (UnixHTTPConnection._new_conn conn_nowhere world_nothing_listens)).
Proof.
  destruct (new_conn_connect_failure_keeps_socket_open conn_nowhere
              world_nothing_listens ENOENT)
    as (Hraises & _ & Hopen & _).
  - split; [reflexivity|]. split; [constructor|left; reflexivity].
  - reflexivity.
  - split; [exact Hraises|exact Hopen].
Defined.

Lemma manager_init_registers_scheme_witness :
  ∃ h2,
    @UnixHTTPPoolManager.__init__ Reference.framework 10 None ∅ ∅
      = (Ok (PoolManager.mk 1 2), h2)
    ∧ registry_entry h2 2 "http+unix" = Some (RFun 1)
    ∧ registry_entry h2 2 "http" = Some (RFun 1)
    ∧ registry_entry h2 1 "http+unix" = Some (RClass UnixHostHTTPConnectionPoolCls).
Proof.
  apply (@manager_init_registers_scheme Reference.framework 10 None ∅ ∅
           (<[2%positive := Reference.key_fns]>
              (<[1%positive := Reference.pool_classes]> ∅))
           (PoolManager.mk 1 2) Reference.pool_classes (RFun 1)).
  - reflexivity.
  - discriminate.
  - reflexivity.
  - reflexivity.
Defined.

Lemma manager_init_frame_witness :
  ∃ r h2,
    @UnixHTTPPoolManager.__init__ Reference.framework 10 None ∅ ∅ = (r, h2)
    ∧ registry_entry h2 1 "https" = Some (RClass HTTPSConnectionPoolCls)
    ∧ registry_entry h2 2 "https" = Some (RFun 2).
Proof.
  destruct (@manager_init_frame Reference.framework 10 None ∅ ∅
              (<[2%positive := Reference.key_fns]>
                 (<[1%positive := Reference.pool_classes]> ∅))
              (PoolManager.mk 1 2))
    as (r & h2 & Hrun & _ & Hframe); [reflexivity|].
  exists r, h2. split; [exact Hrun|].
  destruct (Hframe "https") as (Hclasses & Hkeys & _); [discriminate|].
  simpl in Hclasses, Hkeys. split; [rewrite Hclasses|rewrite Hkeys]; reflexivity.
Defined.

(** * Further properties *)

(** ** The constructors of the pools *)

Section pool_constructors.
Context `{Framework}.


(** X2: The host of a URI-addressed pool takes the parameter [socket_path] of
    the parent constructor by position, so that a keyword [socket_path]
    of the caller makes the construction raise [TypeError], with every
    port and before the constructor of [HTTPConnectionPool] is reached. *)
Theorem host_pool_init_socket_path_keyword_TypeError (host : string)
    (port : option Z) (conn_kw : gmap string PyVal) (v : PyVal) :
  conn_kw !! "socket_path" = Some v →
  UnixHostHTTPConnectionPool.__init__ host port conn_kw
  = Raise (TypeError "socket_path").
Proof.
  intros Hpath. unfold UnixHostHTTPConnectionPool.__init__.
  rewrite Hpath. reflexivity.
Qed.

(** What a constructor of a pool returns: the pool of the class asked
    for, with the path as given and the part that the parent has built
    from the keywords with [host] set to the path. *)
Lemma pool_init_inv (cls : PoolClass) (socket_path : string)
    (conn_kw : gmap string PyVal) (pool : UnixHTTPConnectionPool.t) :
  UnixHTTPConnectionPool.__init__ cls socket_path conn_kw = Ok pool →
  conn_kw !! "host" = None
  ∧ ∃ base,
      HTTPConnectionPool__init__ (<["host" := VStr socket_path]> conn_kw) = Ok base
      ∧ pool = UnixHTTPConnectionPool.mk cls socket_path base.
Proof.
  unfold UnixHTTPConnectionPool.__init__. simpl.
  destruct (conn_kw !! "host") as [v|] eqn:Hhost; simpl; [discriminate|].
  destruct (HTTPConnectionPool__init__ _) as [base|e] eqn:Hbase; simpl;
    [|discriminate].
  intros [= <-]. eauto.
Qed.

Lemma host_pool_init_inv (host : string) (port : option Z)
    (conn_kw : gmap string PyVal) (pool : UnixHTTPConnectionPool.t) :
  UnixHostHTTPConnectionPool.__init__ host port conn_kw = Ok pool →
  conn_kw !! "socket_path" = None
  ∧ conn_kw !! "host" = None
  ∧ ∃ base,
      HTTPConnectionPool__init__ (<["host" := VStr host]> conn_kw) = Ok base
      ∧ pool = UnixHTTPConnectionPool.mk UnixHostHTTPConnectionPoolCls host base.
Proof.
  unfold UnixHostHTTPConnectionPool.__init__.
  destruct (conn_kw !! "socket_path") as [v|] eqn:Hpath; [discriminate|].
  intros Hinit. apply pool_init_inv in Hinit as (Hhost & base & Hbase & ->).
  eauto.
Qed.

(** X3: An exception of the constructor of [HTTPConnectionPool] leaves the
    constructor of a URI-addressed pool as it is: no pool is built, and
    the port plays no part. *)
Theorem host_pool_init_parent_error (host : string) (port : option Z)
    (conn_kw : gmap string PyVal) (e : Exn) :
  conn_kw !! "socket_path" = None →
  conn_kw !! "host" = None →
  HTTPConnectionPool__init__ (<["host" := VStr host]> conn_kw) = Raise e →
  UnixHostHTTPConnectionPool.__init__ host port conn_kw = Raise e.
Proof.
  intros Hpath Hhost Hbase.
  unfold UnixHostHTTPConnectionPool.__init__, UnixHTTPConnectionPool.__init__.
  rewrite Hpath, (call_kw_one _ _ _ Hhost). simpl. rewrite Hbase. reflexivity.
Qed.

(** X4: [str] of a pool built by the constructor of the URI-addressed class
    names that class, not its parent, and shows [repr] of the host as it
    was passed, whatever the port. *)
Theorem host_pool_str (host : string) (port : option Z)
    (conn_kw : gmap string PyVal) (pool : UnixHTTPConnectionPool.t) :
  UnixHostHTTPConnectionPool.__init__ host port conn_kw = Ok pool →
  UnixHTTPConnectionPool.__str__ pool
  = "UnixHostHTTPConnectionPool(socket_path=" +:+ py_repr host +:+ ")".
Proof.
  intros Hinit. apply host_pool_init_inv in Hinit as (_ & _ & base & _ & ->).
  reflexivity.
Qed.

End pool_constructors.

(** ** _new_conn of a pool, on every exit *)

Section pool_new_conn.
Context `{Framework}.

(** What [ConnectionCls] returns has been built by the parent constructor
    from the keywords of the pool with [timeout] and [host] added. *)
Lemma ConnectionCls_inv (socket_path : string) (timeout : PyVal)
    (conn_kw : gmap string PyVal) (conn : UnixHTTPConnection.t) :
  UnixHTTPConnectionPool.ConnectionCls socket_path timeout conn_kw = Ok conn →
  conn_kw !! "socket_path" = None
  ∧ conn_kw !! "timeout" = None
  ∧ conn_kw !! "host" = None
  ∧ ∃ base,
      HTTPConnection__init__
        (<["host" := VStr "localhost"]> (<["timeout" := timeout]> conn_kw))
      = Ok base
      ∧ conn = UnixHTTPConnection.mk socket_path base.
Proof.
  intros Hcls.
  destruct (conn_kw !! "socket_path") as [v|] eqn:Hpath.
  { unfold UnixHTTPConnectionPool.ConnectionCls in Hcls.
    rewrite (call_kw_duplicate _ _ _ _ _ Hpath) in Hcls. discriminate. }
  destruct (conn_kw !! "timeout") as [v|] eqn:Htimeout.
  { unfold UnixHTTPConnectionPool.ConnectionCls in Hcls. simpl in Hcls.
    rewrite Hpath, Htimeout in Hcls. discriminate. }
  destruct (conn_kw !! "host") as [v|] eqn:Hhost.
  { unfold UnixHTTPConnectionPool.ConnectionCls in Hcls.
    rewrite (call_kw_two _ _ _ _ _ Hpath Htimeout) in Hcls. simpl in Hcls.
    unfold UnixHTTPConnection.__init__ in Hcls.
    rewrite (call_kw_duplicate _ _ v) in Hcls; [discriminate|].
    rewrite lookup_delete_ne, lookup_insert_ne, lookup_insert_ne by discriminate.
    exact Hhost. }
  rewrite (ConnectionCls_unfold _ _ _ Hpath Htimeout Hhost) in Hcls.
  destruct (HTTPConnection__init__ _) as [base|e] eqn:Hbase; simpl in Hcls;
    [|discriminate].
  injection Hcls as <-. eauto 6.
Qed.

(** X5: On every exit of [_new_conn], by [return] or by an exception, the
    counter is one more than before, exactly one record has been logged,
    with the new value of the counter and the socket path, and the other
    attributes of the pool are as they were. *)
Theorem pool_new_conn_effects_on_every_exit
    (st st' : UnixHTTPConnectionPool.State) (r : Result UnixHTTPConnection.t) :
  let p := UnixHTTPConnectionPool.self st in
  let p' := UnixHTTPConnectionPool.self st' in
  let n := HTTPConnectionPool.num_connections (UnixHTTPConnectionPool.super p) in
  UnixHTTPConnectionPool._new_conn st = (r, st') →
  HTTPConnectionPool.num_connections (UnixHTTPConnectionPool.super p') = n + 1
  ∧ UnixHTTPConnectionPool.log st'
    = UnixHTTPConnectionPool.log st
      ++ [connection_record (n + 1) (UnixHTTPConnectionPool.socket_path p)]
  ∧ UnixHTTPConnectionPool.socket_path p' = UnixHTTPConnectionPool.socket_path p
  ∧ UnixHTTPConnectionPool.cls p' = UnixHTTPConnectionPool.cls p
  ∧ HTTPConnectionPool.timeout (UnixHTTPConnectionPool.super p')
    = HTTPConnectionPool.timeout (UnixHTTPConnectionPool.super p)
  ∧ HTTPConnectionPool.conn_kw (UnixHTTPConnectionPool.super p')
    = HTTPConnectionPool.conn_kw (UnixHTTPConnectionPool.super p).
Proof.
  cbv zeta. rewrite pool_new_conn_run. intros [= _ <-]. simpl. auto 10.
Qed.

(** X6: A keyword [timeout] among the keywords of the pool for its
    connections meets the keyword [timeout] of the call of
    [ConnectionCls]: [_new_conn] raises [TypeError], and the connection
    that was not built has been counted and logged all the same. *)
Theorem pool_new_conn_duplicate_timeout (st : UnixHTTPConnectionPool.State)
    (v : PyVal) :
  let p := UnixHTTPConnectionPool.self st in
  let b := UnixHTTPConnectionPool.super p in
  HTTPConnectionPool.conn_kw b !! "socket_path" = None →
  HTTPConnectionPool.conn_kw b !! "timeout" = Some v →
  ∃ st',
    UnixHTTPConnectionPool._new_conn st = (Raise (TypeError "timeout"), st')
    ∧ HTTPConnectionPool.num_connections
        (UnixHTTPConnectionPool.super (UnixHTTPConnectionPool.self st'))
      = HTTPConnectionPool.num_connections b + 1
    ∧ UnixHTTPConnectionPool.log st'
      = UnixHTTPConnectionPool.log st
        ++ [connection_record (HTTPConnectionPool.num_connections b + 1)
              (UnixHTTPConnectionPool.socket_path p)].
Proof.
  cbv zeta. intros Hpath Htimeout. rewrite pool_new_conn_run.
  unfold UnixHTTPConnectionPool.ConnectionCls. simpl.
  rewrite Hpath, Htimeout. simpl. eexists. split; [reflexivity|]. simpl. auto.
Qed.

(** X7: [n] calls in a row, whatever each of them returns or raises, add [n]
    to the counter and log [n] records, numbered from the counter at the
    start on; the socket path of the pool stays what it was. *)
Theorem pool_new_conn_times_log (n : nat) (st : UnixHTTPConnectionPool.State) :
  let p := UnixHTTPConnectionPool.self st in
  let p' := UnixHTTPConnectionPool.self (new_conn_times n st) in
  let start := HTTPConnectionPool.num_connections (UnixHTTPConnectionPool.super p) in
  HTTPConnectionPool.num_connections (UnixHTTPConnectionPool.super p')
    = start + Z.of_nat n
  ∧ UnixHTTPConnectionPool.log (new_conn_times n st)
    = UnixHTTPConnectionPool.log st
      ++ connection_records start (UnixHTTPConnectionPool.socket_path p) n
  ∧ UnixHTTPConnectionPool.socket_path p' = UnixHTTPConnectionPool.socket_path p.
Proof.
  cbv zeta. revert st. induction n as [|n IH]; intros st.
  - simpl. unfold connection_records. simpl. rewrite app_nil_r. split; [lia|auto].
  - cbn [new_conn_times]. rewrite pool_new_conn_run. cbn [snd].
    match goal with |- context [new_conn_times n ?s] => set (st1 := s) end.
    destruct (IH st1) as (Hn & Hlog & Hpath).
    rewrite Hn, Hlog, Hpath. subst st1.
    cbn [UnixHTTPConnectionPool.self UnixHTTPConnectionPool.super
         UnixHTTPConnectionPool.log UnixHTTPConnectionPool.socket_path
         HTTPConnectionPool.num_connections].
    clear IH Hn Hlog Hpath.
    split; [rewrite Nat2Z.inj_succ; lia|]. split; [|reflexivity].
    rewrite <- app_assoc. f_equal.
    unfold connection_records. cbn [seq map app]. f_equal.
    + unfold connection_record. do 3 f_equal. lia.
    + rewrite <- seq_shift, map_map. apply map_ext. intros i.
      unfold connection_record. do 3 f_equal. lia.
Qed.

End pool_new_conn.

(** ** Registering the scheme, at the edges *)

Section manager_edges.
Context `{Framework}.

(** X8: Without a key function for ["http"] the construction of a manager
    raises [KeyError] for ["http"].  The pool class has been registered
    by then: the registry of pool classes holds
    [UnixHostHTTPConnectionPool] for ["http+unix"], and nothing else of
    the store has changed. *)
Theorem manager_init_missing_http_KeyError (num_pools : Z)
    (headers : option (gmap string string))
    (connection_pool_kw : gmap string PyVal) (h h1 : Heap)
    (self : PoolManager.t) (classes keys : gmap string PyRef) :
  PoolManager__init__ num_pools headers connection_pool_kw h = (Ok self, h1) →
  h1 !! PoolManager.pool_classes_by_scheme self = Some classes →
  h1 !! PoolManager.key_fn_by_scheme self = Some keys →
  keys !! "http" = None →
  UnixHTTPPoolManager.__init__ num_pools headers connection_pool_kw h
  = (Raise (KeyError "http"),
     <[PoolManager.pool_classes_by_scheme self :=
         <["http+unix" := RClass UnixHostHTTPConnectionPoolCls]> classes]> h1).
Proof.
  intros Hparent Hclasses Hkeys Hhttp. destruct self as [c k]. simpl in *.
  unfold UnixHTTPPoolManager.__init__. cbv [mbind M_bind]. rewrite Hparent. simpl.
  rewrite (dict_setitem_allocated _ _ _ _ _ Hclasses).
  unfold dict_getitem. destruct (decide (k = c)) as [->|Hkc].
  - rewrite lookup_insert_eq. assert (keys = classes) as -> by congruence.
    rewrite lookup_insert_ne by discriminate. rewrite Hhttp. reflexivity.
  - rewrite lookup_insert_ne by congruence. rewrite Hkeys, Hhttp. reflexivity.
Qed.

(** X9: Registering is idempotent: where the registries that the parent
    constructor hands out hold the entries for ["http+unix"] already, as
    they do when managers share their registries and one has been built
    before, the construction returns and leaves the store as it is. *)
Theorem manager_init_idempotent (num_pools : Z)
    (headers : option (gmap string string))
    (connection_pool_kw : gmap string PyVal) (h h1 : Heap)
    (self : PoolManager.t) (http_key_fn : PyRef) :
  PoolManager__init__ num_pools headers connection_pool_kw h = (Ok self, h1) →
  registry_entry h1 (PoolManager.pool_classes_by_scheme self) "http+unix"
    = Some (RClass UnixHostHTTPConnectionPoolCls) →
  registry_entry h1 (PoolManager.key_fn_by_scheme self) "http" = Some http_key_fn →
  registry_entry h1 (PoolManager.key_fn_by_scheme self) "http+unix"
    = Some http_key_fn →
  UnixHTTPPoolManager.__init__ num_pools headers connection_pool_kw h
  = (Ok self, h1).
Proof.
  intros Hparent Hclass Hhttp Hunix. destruct self as [c k]. simpl in *.
  unfold UnixHTTPPoolManager.__init__. cbv [mbind M_bind]. rewrite Hparent. simpl.
  assert (Hsame : ∀ (d : positive) (v : PyRef),
            registry_entry h1 d "http+unix" = Some v →
            dict_setitem d "http+unix" v h1 = (Ok tt, h1)).
  { intros d v. unfold registry_entry, dict_setitem.
    destruct (h1 !! d) as [m|] eqn:Hd; simpl; [|discriminate].
    intros Hv. rewrite (insert_id m _ _ Hv), (insert_id h1 _ _ Hd). reflexivity. }
  change UnixHostHTTPConnectionPool.scheme with "http+unix".
  rewrite (Hsame _ _ Hclass), (dict_getitem_entry _ _ _ _ Hhttp),
    (Hsame _ _ Hunix).
  reflexivity.
Qed.

End manager_edges.


Lemma host_pool_init_socket_path_keyword_TypeError_witness :
  @UnixHostHTTPConnectionPool.__init__ Reference.framework
    "%2Fvar%2Frun%2Fserver.sock" (Some 8080)
    (<["socket_path" := VStr "/tmp/other.sock"]> ∅)
  = Raise (TypeError "socket_path").
Proof.
  apply (@host_pool_init_socket_path_keyword_TypeError Reference.framework
           "%2Fvar%2Frun%2Fserver.sock" (Some 8080)
           (<["socket_path" := VStr "/tmp/other.sock"]> ∅)
           (VStr "/tmp/other.sock")).
  reflexivity.
Defined.

Lemma host_pool_init_parent_error_witness :
  @UnixHostHTTPConnectionPool.__init__ framework_refusing "" (Some 80) ∅
  = Raise (FrameworkError 1).
Proof.
  apply (@host_pool_init_parent_error framework_refusing "" (Some 80) ∅
           (FrameworkError 1)); reflexivity.
Defined.

Lemma host_pool_str_witness :
  ∃ pool,
    @UnixHostHTTPConnectionPool.__init__ Reference.framework
      "%2Fvar%2Frun%2Fserver.sock" (Some 8080) ∅ = Ok pool
    ∧ UnixHTTPConnectionPool.__str__ pool
      = "UnixHostHTTPConnectionPool(socket_path='%2Fvar%2Frun%2Fserver.sock')".
Proof.
  eexists. split; [reflexivity|].
  apply (@host_pool_str Reference.framework "%2Fvar%2Frun%2Fserver.sock"
           (Some 8080) ∅).
  reflexivity.
Defined.

Lemma pool_new_conn_effects_on_every_exit_witness :
  HTTPConnectionPool.num_connections
    (UnixHTTPConnectionPool.super
       (UnixHTTPConnectionPool.self
          (snd (@UnixHTTPConnectionPool._new_conn Reference.framework
                  state_duplicate_timeout)))) = 5.
Proof.
  destruct (@UnixHTTPConnectionPool._new_conn Reference.framework
              state_duplicate_timeout) as [r st'] eqn:Hrun.
  destruct (@pool_new_conn_effects_on_every_exit Reference.framework
              state_duplicate_timeout st' r Hrun) as (Hn & _).
  exact Hn.
Defined.

Lemma pool_new_conn_duplicate_timeout_witness :
  ∃ st',
    @UnixHTTPConnectionPool._new_conn Reference.framework state_duplicate_timeout
      = (Raise (TypeError "timeout"), st')
    ∧ HTTPConnectionPool.num_connections
        (UnixHTTPConnectionPool.super (UnixHTTPConnectionPool.self st')) = 5
    ∧ UnixHTTPConnectionPool.log st'
      = [connection_record 5 "/var/run/server.sock"].
Proof.
  apply (@pool_new_conn_duplicate_timeout Reference.framework
           state_duplicate_timeout (VInt 9)); reflexivity.
Defined.

Lemma manager_init_missing_http_KeyError_witness :
  fst (@UnixHTTPPoolManager.__init__ framework_without_http 10 None ∅ ∅)
    = Raise (KeyError "http")
  ∧ registry_entry
      (snd (@UnixHTTPPoolManager.__init__ framework_without_http 10 None ∅ ∅))
      1 "http+unix"
    = Some (RClass UnixHostHTTPConnectionPoolCls).
Proof.
  rewrite (@manager_init_missing_http_KeyError framework_without_http 10 None ∅ ∅
             heap_without_http (PoolManager.mk 1 2) Reference.pool_classes
             (<["https" := RFun 2]> ∅));
    try reflexivity.
  split; reflexivity.
Defined.

Lemma manager_init_idempotent_witness :
  @UnixHTTPPoolManager.__init__ framework_shared 10 None ∅ heap_shared
    = (Ok (PoolManager.mk 1 2), heap_registered)
  ∧ @UnixHTTPPoolManager.__init__ framework_shared 10 None ∅ heap_registered
    = (Ok (PoolManager.mk 1 2), heap_registered).
Proof.
  split; [reflexivity|].
  apply (@manager_init_idempotent framework_shared 10 None ∅ heap_registered
           heap_registered (PoolManager.mk 1 2) (RFun 1));
    reflexivity.
Defined.

(** ** Opening a connection, case by case *)

Lemma setsockopt_each_ok_inv (sock : nat) (opts : list SockOpt) (w : World) :
  fst (setsockopt_each sock opts w) = Ok tt →
  Forall (λ opt, setsockopt_errno (os w) opt = None) opts.
Proof.
  revert w. induction opts as [|opt rest IH]; intros w; [constructor|].
  cbn [setsockopt_each]. cbv [mbind M_bind]. rewrite setsockopt_run.
  destruct (setsockopt_errno (os w) opt) as [e|] eqn:Hopt; [discriminate|].
  intros Hrest. constructor; [exact Hopt|]. exact (IH _ Hrest).
Qed.

Lemma set_socket_options_ok_inv (sock : nat) (options : option (list SockOpt))
    (w : World) :
  fst (_set_socket_options sock options w) = Ok tt →
  Forall (λ opt, setsockopt_errno (os w) opt = None) (default [] options).
Proof.
  destruct options as [opts|]; simpl; [apply setsockopt_each_ok_inv|constructor].
Qed.

(** The four ways through [_new_conn]: the socket cannot be created; an
    option cannot be set; the timeout is refused; [connect] is reached,
    and fails or succeeds. *)
Lemma new_conn_cases (self : UnixHTTPConnection.t) (w : World) :
  let fd := next_fd w in
  let path := UnixHTTPConnection.socket_path self in
  let t := HTTPConnection.timeout (UnixHTTPConnection.super self) in
  let sets :=
    map (EvSetsockopt fd)
      (default [] (HTTPConnection.socket_options (UnixHTTPConnection.super self))) in
  let run := UnixHTTPConnection._new_conn self w in
  (∃ e, socket_errno (os w) = Some e
        ∧ run = (Raise (OSError e), add_events w [EvSocket AF_UNIX SOCK_STREAM]))
  ∨ (∃ e evs, socket_errno (os w) = None
              ∧ ¬ Forall (λ opt, setsockopt_errno (os w) opt = None)
                    (default []
                       (HTTPConnection.socket_options (UnixHTTPConnection.super self)))
              ∧ evs `prefix_of` sets
              ∧ run = (Raise e, add_events (world_with_socket w) evs))
  ∨ (∃ e, socket_errno (os w) = None
          ∧ is_SOCKET_GLOBAL_DEFAULT_TIMEOUT t = false
          ∧ socket.check_timeout t = Raise e
          ∧ run = (Raise e,
                   add_events (world_with_socket w) (sets ++ [EvSettimeout fd t])))
  ∨ (reaches_connect self w
     ∧ run = (match connect_errno (os w) path with
              | Some e => Raise (OSError e)
              | None => Ok fd
              end,
              mkWorld (os w) (S fd) ({[fd]} ∪ open_fds w) (timeouts_after self w)
                (match connect_errno (os w) path with
                 | Some _ => connected w
                 | None => <[fd := path]> (connected w)
                 end)
                (trace w ++ new_conn_steps self fd))).
Proof.
  cbv zeta.
  unfold UnixHTTPConnection._new_conn, new_conn_steps, reaches_connect,
    timeouts_after.
  destruct self as [path [host timeout options]]. simpl.
  cbv [mbind M_bind]. rewrite socket_run.
  destruct (socket_errno (os w)) as [e|] eqn:Hsocket; [left; eauto|].
  right. fold (world_with_socket w).
  destruct (set_socket_options_run (next_fd w) options (world_with_socket w))
    as (evs & Hpre & Hw2 & Hok & Hall).
  pose proof (set_socket_options_ok_inv (next_fd w) options (world_with_socket w))
    as Hinv.
  destruct (_set_socket_options (next_fd w) options (world_with_socket w))
    as [r2 w2].
  simpl in Hw2, Hok, Hinv, Hall. subst w2.
  destruct r2 as [[]|e2].
  2:{ left. exists e2, evs. split; [reflexivity|]. split; [|auto].
      intros Hforall. specialize (Hall Hforall). discriminate. }
  right. specialize (Hok eq_refl). specialize (Hinv eq_refl). subst evs.
  destruct (is_SOCKET_GLOBAL_DEFAULT_TIMEOUT timeout) eqn:Hdefault.
  - right. split; [auto|].
    cbv [mret M_ret]. rewrite connect_run. simpl.
    destruct (connect_errno (os w) path);
      unfold add_events, world_with_socket; simpl;
      rewrite <- !app_assoc; reflexivity.
  - rewrite settimeout_run.
    destruct (socket.check_timeout timeout) as [[]|e3] eqn:Hcheck.
    2:{ left. exists e3. rewrite add_events_app. auto. }
    right. split; [auto|].
    rewrite connect_run. simpl.
    destruct (connect_errno (os w) path);
      unfold add_events, world_with_socket; simpl;
      rewrite <- !app_assoc; reflexivity.
Qed.

Lemma setsockopt_events_no_connect (sock : nat) (opts : list SockOpt)
    (evs : list SockEvent) :
  evs `prefix_of` map (EvSetsockopt sock) opts → ¬ connects evs.
Proof.
  intros [rest Hrest] (fd & address & Hin).
  assert (Hin' : EvConnect fd address ∈ map (EvSetsockopt sock) opts).
  { rewrite Hrest. apply elem_of_app. left. exact Hin. }
  apply list_elem_of_In, in_map_iff in Hin' as (opt & Hopt & _). discriminate.
Qed.

(** A run that returns has reached [connect], which has succeeded, and
    has changed the world in four places: the counter of handles, the
    set of open handles, the timeout and the peer of the new socket. *)
Lemma new_conn_ok_inv (self : UnixHTTPConnection.t) (w : World) (sock : nat) :
  fst (UnixHTTPConnection._new_conn self w) = Ok sock →
  sock = next_fd w
  ∧ reaches_connect self w
  ∧ connect_errno (os w) (UnixHTTPConnection.socket_path self) = None
  ∧ snd (UnixHTTPConnection._new_conn self w)
    = mkWorld (os w) (S sock) ({[sock]} ∪ open_fds w) (timeouts_after self w)
        (<[sock := UnixHTTPConnection.socket_path self]> (connected w))
        (trace w ++ new_conn_steps self sock).
Proof.
  destruct (new_conn_cases self w)
    as [(e & _ & ->)|[(e & evs & _ & _ & _ & ->)|[(e & _ & _ & _ & ->)
       |(Hreach & ->)]]]; try discriminate.
  destruct (connect_errno (os w) _) as [e|]; simpl; [discriminate|].
  intros [= <-]. auto.
Qed.

(** X10: Where the socket cannot be created, [_new_conn] raises the [OSError]
    of [socket.socket] and has made no other call: no handle has been
    opened, and neither options, timeout nor [connect] have been tried. *)
Theorem new_conn_socket_failure (self : UnixHTTPConnection.t) (w : World)
    (errno : Errno) :
  socket_errno (os w) = Some errno →
  UnixHTTPConnection._new_conn self w
  = (Raise (OSError errno), add_events w [EvSocket AF_UNIX SOCK_STREAM]).
Proof.
  intros Hsocket.
  destruct (new_conn_cases self w)
    as [(e & He & ->)|[(e & evs & He & _)|[(e & He & _)|((He & _) & _)]]];
    congruence.
Qed.

(** X11: A timeout that [settimeout] refuses, such as a negative number, makes
    [_new_conn] raise the error of [settimeout] before it connects: the
    last call is the [settimeout], the socket has no peer, and it is left
    open. *)
Theorem new_conn_refused_timeout (self : UnixHTTPConnection.t) (w : World)
    (e : Exn) :
  let fd := next_fd w in
  let t := HTTPConnection.timeout (UnixHTTPConnection.super self) in
  let options :=
    default [] (HTTPConnection.socket_options (UnixHTTPConnection.super self)) in
  let w' := snd (UnixHTTPConnection._new_conn self w) in
  socket_errno (os w) = None →
  Forall (λ opt, setsockopt_errno (os w) opt = None) options →
  is_SOCKET_GLOBAL_DEFAULT_TIMEOUT t = false →
  socket.check_timeout t = Raise e →
  fst (UnixHTTPConnection._new_conn self w) = Raise e
  ∧ trace w'
    = trace w ++ [EvSocket AF_UNIX SOCK_STREAM] ++ map (EvSetsockopt fd) options
      ++ [EvSettimeout fd t]
  ∧ connected w' = connected w
  ∧ timeouts w' = timeouts w
  ∧ open_fds w' = {[fd]} ∪ open_fds w.
Proof.
  cbv zeta. intros Hsocket Hoptions Hdefault Hcheck.
  destruct (new_conn_cases self w)
    as [(e' & He & _)|[(e' & evs & _ & Hnot & _)|[(e' & _ & _ & Hcheck' & ->)
       |((_ & _ & [Ht|Ht]) & _)]]]; try congruence.
  assert (e' = e) as -> by congruence.
  unfold add_events, world_with_socket. simpl.
  rewrite <- !app_assoc. auto.
Qed.

(** X12: [connect] is called exactly in the runs in which the socket has been
    created, every option has been set and the timeout, if it is not the
    sentinel, has been accepted: after a failure of an earlier call
    [_new_conn] never connects. *)
Theorem new_conn_connects_iff_reached (self : UnixHTTPConnection.t) (w : World) :
  ∃ done,
    trace (snd (UnixHTTPConnection._new_conn self w)) = trace w ++ done
    ∧ (connects done ↔ reaches_connect self w).
Proof.
  destruct (new_conn_cases self w)
    as [(e & He & ->)|[(e & evs & He & Hnot & Hpre & ->)|[(e & He & Hdef & Hcheck & ->)
       |(Hreach & ->)]]]; simpl.
  - exists [EvSocket AF_UNIX SOCK_STREAM]. split; [reflexivity|]. split.
    + intros (fd & address & Hin). apply list_elem_of_singleton in Hin.
      discriminate.
    + intros (Hsocket & _). congruence.
  - exists (EvSocket AF_UNIX SOCK_STREAM :: evs). split.
    { rewrite <- app_assoc. reflexivity. }
    split.
    + intros (fd & address & Hin). apply elem_of_cons in Hin as [Hin|Hin];
        [discriminate|].
      exfalso. eapply setsockopt_events_no_connect; [exact Hpre|].
      exists fd, address. exact Hin.
    + intros (_ & Hall & _). contradiction.
  - eexists. split; [rewrite <- app_assoc; reflexivity|]. split.
    + intros (fd & address & Hin).
      apply elem_of_app in Hin as [Hin|Hin].
      { apply list_elem_of_singleton in Hin. discriminate. }
      apply elem_of_app in Hin as [Hin|Hin].
      { exfalso. eapply setsockopt_events_no_connect; [reflexivity|].
        exists fd, address. exact Hin. }
      apply list_elem_of_singleton in Hin. discriminate.
    + intros (_ & _ & [Ht|Ht]); congruence.
  - exists (new_conn_steps self (next_fd w)). split; [reflexivity|].
    split; [intros _; exact Hreach|]. intros _.
    exists (next_fd w), (UnixHTTPConnection.socket_path self).
    unfold new_conn_steps. rewrite !elem_of_app. right. right. right.
    apply list_elem_of_singleton. reflexivity.
Qed.

(** X13: A run that returns has changed the world in this way only: the new
    handle is open and connected to the socket path, its timeout is the
    configured one, or what it was where the configured timeout is the
    sentinel, and the calls made are all the steps in their order. *)
Theorem new_conn_success_state (self : UnixHTTPConnection.t) (w : World)
    (sock : nat) :
  let t := HTTPConnection.timeout (UnixHTTPConnection.super self) in
  let w' := snd (UnixHTTPConnection._new_conn self w) in
  fst (UnixHTTPConnection._new_conn self w) = Ok sock →
  sock = next_fd w
  ∧ os w' = os w
  ∧ next_fd w' = S sock
  ∧ open_fds w' = {[sock]} ∪ open_fds w
  ∧ connected w' = <[sock := UnixHTTPConnection.socket_path self]> (connected w)
  ∧ timeouts w'
    = (if is_SOCKET_GLOBAL_DEFAULT_TIMEOUT t then timeouts w
       else <[sock := t]> (timeouts w))
  ∧ trace w' = trace w ++ new_conn_steps self sock.
Proof.
  cbv zeta. intros Hok.
  destruct (new_conn_ok_inv self w sock Hok) as (-> & _ & _ & ->). simpl.
  unfold timeouts_after. auto 10.
Qed.

(** X14: [_new_conn] works on the socket that it creates and on no other: the
    timeout, the peer and the state of every other handle are what they
    were, on every exit, and no call of a run is a [close]. *)
Theorem new_conn_touches_only_its_socket (self : UnixHTTPConnection.t)
    (w : World) (fd : nat) :
  let w' := snd (UnixHTTPConnection._new_conn self w) in
  fd ≠ next_fd w →
  os w' = os w
  ∧ timeouts w' !! fd = timeouts w !! fd
  ∧ connected w' !! fd = connected w !! fd
  ∧ (fd ∈ open_fds w' ↔ fd ∈ open_fds w)
  ∧ ∃ done, trace w' = trace w ++ done ∧ ∀ fd', ¬ closes fd' done.
Proof.
  cbv zeta. intros Hfd.
  assert (Hopen : fd ∈ {[next_fd w]} ∪ open_fds w ↔ fd ∈ open_fds w).
  { rewrite elem_of_union, elem_of_singleton. tauto. }
  assert (Hclose : ∃ done,
            trace (snd (UnixHTTPConnection._new_conn self w)) = trace w ++ done
            ∧ ∀ fd', ¬ closes fd' done).
  { destruct (new_conn_run self w) as (done & Htrace & Hpre & _).
    exists done. split; [exact Htrace|]. intros fd'.
    eapply prefix_no_close; [exact Hpre|apply new_conn_steps_no_close]. }
  destruct (new_conn_cases self w)
    as [(e & _ & Hrun)|[(e & evs & _ & _ & _ & Hrun)|[(e & _ & _ & _ & Hrun)
       |(_ & Hrun)]]]; rewrite Hrun in Hclose |- *; simpl.
  - split; [reflexivity|]. split; [reflexivity|]. split; [reflexivity|].
    split; [reflexivity|]. exact Hclose.
  - split; [reflexivity|]. split; [reflexivity|]. split; [reflexivity|].
    split; [exact Hopen|]. exact Hclose.
  - split; [reflexivity|]. split; [reflexivity|]. split; [reflexivity|].
    split; [exact Hopen|]. exact Hclose.
  - split; [reflexivity|]. split.
    { unfold timeouts_after. destruct (is_SOCKET_GLOBAL_DEFAULT_TIMEOUT _);
        [reflexivity|]. apply lookup_insert_ne. congruence. }
    split.
    { destruct (connect_errno (os w) _); [reflexivity|].
      apply lookup_insert_ne. congruence. }
    split; [exact Hopen|]. exact Hclose.
Qed.

(** ** From the pool to the socket *)

Section pool_to_socket.
Context `{Framework}.

(** X15: A connection that [_new_conn] of a pool has returned connects, when
    it is opened, to the socket path of the pool: the peer of the socket
    that it returns is that path. *)
Theorem pool_connection_opens_pool_socket
    (st st' : UnixHTTPConnectionPool.State) (conn : UnixHTTPConnection.t)
    (w : World) (sock : nat) :
  let path := UnixHTTPConnectionPool.socket_path (UnixHTTPConnectionPool.self st) in
  let w' := snd (UnixHTTPConnection._new_conn conn w) in
  UnixHTTPConnectionPool._new_conn st = (Ok conn, st') →
  fst (UnixHTTPConnection._new_conn conn w) = Ok sock →
  connected w' !! sock = Some path
  ∧ EvConnect sock path ∈ trace w'
  ∧ sock ∈ open_fds w'.
Proof.
  cbv zeta. intros Hpool Hopen.
  apply pool_new_conn_socket_path in Hpool as Hpath.
  destruct (new_conn_ok_inv conn w sock Hopen) as (_ & _ & _ & ->). simpl.
  rewrite <- Hpath. split; [apply lookup_insert_eq|]. split.
  - unfold new_conn_steps. rewrite !elem_of_app. right. right. right. right.
    apply list_elem_of_singleton. reflexivity.
  - apply elem_of_union_l, elem_of_singleton. reflexivity.
Qed.

(** X16: With a parent constructor that keeps the timeout it is given, the
    socket of such a connection gets the connect timeout of the pool as
    its timeout, and keeps the timeout it has where the connect timeout
    of the pool is the sentinel. *)
Theorem pool_connection_uses_connect_timeout
    (st st' : UnixHTTPConnectionPool.State) (conn : UnixHTTPConnection.t)
    (w : World) (sock : nat) :
  let connect_timeout :=
    Timeout.connect_timeout
      (HTTPConnectionPool.timeout
         (UnixHTTPConnectionPool.super (UnixHTTPConnectionPool.self st))) in
  let w' := snd (UnixHTTPConnection._new_conn conn w) in
  HTTPConnection_keeps_timeout →
  UnixHTTPConnectionPool._new_conn st = (Ok conn, st') →
  fst (UnixHTTPConnection._new_conn conn w) = Ok sock →
  timeouts w'
  = (if is_SOCKET_GLOBAL_DEFAULT_TIMEOUT connect_timeout then timeouts w
     else <[sock := connect_timeout]> (timeouts w)).
Proof.
  cbv zeta. intros Hkeeps Hpool Hopen.
  rewrite pool_new_conn_run in Hpool. injection Hpool as Hcls _.
  apply ConnectionCls_inv in Hcls as (_ & _ & _ & base & Hbase & ->).
  assert (Htimeout : HTTPConnection.timeout base
            = Timeout.connect_timeout
                (HTTPConnectionPool.timeout
                   (UnixHTTPConnectionPool.super (UnixHTTPConnectionPool.self st)))).
  { apply (Hkeeps _ _ _ Hbase).
    rewrite lookup_insert_ne by discriminate. apply lookup_insert_eq. }
  destruct (new_conn_ok_inv _ w sock Hopen) as (-> & _ & _ & ->). simpl.
  unfold timeouts_after. simpl. rewrite Htimeout. reflexivity.
Qed.

End pool_to_socket.

(** ** str of a pool tells the pools apart *)

Lemma unrepr_repr_char (quote c : ascii) (rest : string) :
  quote = squote ∨ quote = dquote →
  unrepr_char (repr_char quote c +:+ rest) = Some (c, rest).
Proof.
  intros [->| ->]; destruct c as [[] [] [] [] [] [] [] []]; reflexivity.
Qed.

Lemma unrepr_quote (quote : ascii) :
  quote = squote ∨ quote = dquote →
  unrepr_char (String quote "") = Some (quote, "").
Proof. intros [->| ->]; reflexivity. Qed.

Lemma repr_body_closed_inj (quote : ascii) (s1 s2 : string) :
  quote = squote ∨ quote = dquote →
  repr_body quote s1 +:+ String quote "" = repr_body quote s2 +:+ String quote "" →
  s1 = s2.
Proof.
  intros Hquote. revert s2.
  assert (Hne : ∀ c s, String quote ""
                         ≠ repr_body quote (String c s) +:+ String quote "").
  { intros c s Heq. apply (f_equal unrepr_char) in Heq.
    cbn [repr_body] in Heq.
    rewrite append_assoc, (unrepr_repr_char _ _ _ Hquote),
      (unrepr_quote _ Hquote) in Heq.
    injection Heq as _ Heq. apply (f_equal String.length) in Heq.
    rewrite length_append in Heq. simpl in Heq. lia. }
  induction s1 as [|c1 s1 IH]; intros [|c2 s2] Heq.
  - reflexivity.
  - destruct (Hne c2 s2). exact Heq.
  - destruct (Hne c1 s1). symmetry. exact Heq.
  - cbn [repr_body] in Heq. rewrite !append_assoc in Heq.
    apply (f_equal unrepr_char) in Heq.
    rewrite !(unrepr_repr_char _ _ _ Hquote) in Heq.
    injection Heq as -> Heq. f_equal. apply IH. exact Heq.
Qed.

(** [repr] tells the strings apart. *)
Lemma py_repr_inj (s1 s2 : string) : py_repr s1 = py_repr s2 → s1 = s2.
Proof.
  unfold py_repr. intros Heq. injection Heq as Hquote Hbody.
  rewrite <- Hquote in Hbody.
  apply (repr_body_closed_inj _ _ _) in Hbody; [exact Hbody|].
  destruct (contains squote s1 && negb (contains dquote s1)); auto.
Qed.

Lemma append_inj_l (s t1 t2 : string) : s +:+ t1 = s +:+ t2 → t1 = t2.
Proof.
  induction s as [|c s IH]; [auto|].
  rewrite !append_cons. intros [= Heq]. auto.
Qed.

Lemma append_char_inj_r (c : ascii) (s1 s2 : string) :
  s1 +:+ String c "" = s2 +:+ String c "" → s1 = s2.
Proof.
  revert s2. induction s1 as [|c1 s1 IH]; intros [|c2 s2] Heq.
  - reflexivity.
  - apply (f_equal String.length) in Heq. rewrite append_cons in Heq.
    simpl in Heq. rewrite length_append in Heq. simpl in Heq. lia.
  - apply (f_equal String.length) in Heq. rewrite append_cons in Heq.
    simpl in Heq. rewrite length_append in Heq. simpl in Heq. lia.
  - rewrite !append_cons in Heq. injection Heq as -> Heq. f_equal. auto.
Qed.

(** X17: Two pools with the same [str] are of the same class and have the
    same socket path: the rendering loses nothing of either, whatever
    characters the paths are made of. *)
Theorem pool_str_injective (pool1 pool2 : UnixHTTPConnectionPool.t) :
  UnixHTTPConnectionPool.__str__ pool1 = UnixHTTPConnectionPool.__str__ pool2 →
  UnixHTTPConnectionPool.cls pool1 = UnixHTTPConnectionPool.cls pool2
  ∧ UnixHTTPConnectionPool.socket_path pool1
    = UnixHTTPConnectionPool.socket_path pool2.
Proof.
  destruct pool1 as [cls1 path1 base1], pool2 as [cls2 path2 base2].
  unfold UnixHTTPConnectionPool.__str__. simpl.
  set (r1 := py_repr path1). set (r2 := py_repr path2).
  assert (Hsame : ∀ name, name +:+ "(socket_path=" +:+ r1 +:+ ")"
                          = name +:+ "(socket_path=" +:+ r2 +:+ ")" →
                          path1 = path2).
  { intros name Heq. do 2 apply append_inj_l in Heq.
    apply append_char_inj_r in Heq. apply py_repr_inj. exact Heq. }
  destruct cls1, cls2; intros Heq;
    first [ split; [reflexivity|exact (Hsame _ Heq)]
          | exfalso; clearbody r1 r2; cbv in Heq; discriminate ].
Qed.

Lemma new_conn_socket_failure_witness :
  UnixHTTPConnection._new_conn conn_listening world_no_socket
  = (Raise (OSError EMFILE),
     add_events world_no_socket [EvSocket AF_UNIX SOCK_STREAM]).
Proof.
  apply (new_conn_socket_failure conn_listening world_no_socket EMFILE).
  reflexivity.
Defined.

Lemma new_conn_refused_timeout_witness :
  fst (UnixHTTPConnection._new_conn conn_negative_timeout world_all_listen)
    = Raise ValueError
  ∧ trace (snd (UnixHTTPConnection._new_conn conn_negative_timeout world_all_listen))
    = [EvSocket AF_UNIX SOCK_STREAM; EvSettimeout 3 (VInt (-1))].
Proof.
  destruct (new_conn_refused_timeout conn_negative_timeout world_all_listen
              ValueError) as (Hraise & Htrace & _); try reflexivity.
  - constructor.
  - split; [exact Hraise|exact Htrace].
Defined.

Lemma new_conn_success_state_witness :
  timeouts (snd (UnixHTTPConnection._new_conn conn_listening world_all_listen))
    = <[3%nat := VInt 5]> ∅
  ∧ connected (snd (UnixHTTPConnection._new_conn conn_listening world_all_listen))
    = <[3%nat := "/var/run/server.sock"]> ∅.
Proof.
  destruct (new_conn_success_state conn_listening world_all_listen 3)
    as (_ & _ & _ & _ & Hconnected & Htimeouts & _); [reflexivity|].
  split; [exact Htimeouts|exact Hconnected].
Defined.

Lemma new_conn_touches_only_its_socket_witness :
  timeouts (snd (UnixHTTPConnection._new_conn conn_listening world_one_open))
    !! 1%nat = Some (VInt 30)
  ∧ connected (snd (UnixHTTPConnection._new_conn conn_listening world_one_open))
    !! 1%nat = Some "/tmp/other.sock".
Proof.
  assert (Hother : 1%nat ≠ next_fd world_one_open) by discriminate.
  destruct (new_conn_touches_only_its_socket conn_listening world_one_open 1
              Hother) as (_ & Htimeouts & Hconnected & _).
  split; [exact Htimeouts|exact Hconnected].
Defined.

Lemma pool_connection_opens_pool_socket_witness :
  connected (snd (UnixHTTPConnection._new_conn conn_server_sock world_all_listen))
    !! 3%nat = Some "/var/run/server.sock".
Proof.
  assert (Hpool : @UnixHTTPConnectionPool._new_conn Reference.framework
                    state_server_sock
                  = (Ok conn_server_sock,
                     snd (@UnixHTTPConnectionPool._new_conn Reference.framework
                            state_server_sock))) by reflexivity.
  assert (Hopen : fst (UnixHTTPConnection._new_conn conn_server_sock
                         world_all_listen) = Ok 3%nat) by reflexivity.
  destruct (@pool_connection_opens_pool_socket Reference.framework
              state_server_sock _ conn_server_sock world_all_listen 3
              Hpool Hopen) as (Hpeer & _).
  exact Hpeer.
Defined.

Lemma pool_connection_uses_connect_timeout_witness :
  timeouts (snd (UnixHTTPConnection._new_conn conn_server_sock world_all_listen))
    = <[3%nat := VInt 3]> ∅.
Proof.
  assert (Hpool : @UnixHTTPConnectionPool._new_conn Reference.framework
                    state_server_sock
                  = (Ok conn_server_sock,
                     snd (@UnixHTTPConnectionPool._new_conn Reference.framework
                            state_server_sock))) by reflexivity.
  assert (Hopen : fst (UnixHTTPConnection._new_conn conn_server_sock
                         world_all_listen) = Ok 3%nat) by reflexivity.
  exact (@pool_connection_uses_connect_timeout Reference.framework
           state_server_sock _ conn_server_sock world_all_listen 3
           Reference_keeps_timeout Hpool Hopen).
Defined.

Lemma pool_str_injective_witness :
  UnixHTTPConnectionPool.cls pool_server_sock_used
    = UnixHTTPConnectionPool.cls pool_server_sock
  ∧ UnixHTTPConnectionPool.socket_path pool_server_sock_used
    = UnixHTTPConnectionPool.socket_path pool_server_sock.
Proof.
  apply (pool_str_injective pool_server_sock_used pool_server_sock).
  reflexivity.
Defined.
